(** * Financial-Advisory-Chatbot: the recommendation engine and the forecast selector

    A shallow embedding of the two scripts of the repository,
    [Stock_risk_assessment/stock_risk.py] (module [StockRisk]) and
    [prophet.py] (module [Forecast]).

    Python floats are IEEE binary64 numbers: they are modelled by Rocq's
    primitive floats, whose comparisons treat NaN and the infinities as
    Python's do.  Calls into pandas, numpy, scikit-learn, statsmodels and
    Prophet whose numerics are not part of the repository are parameters of
    the embedding (section variables, and for [prophet.py] the fields of
    the class [Libraries]); the control flow around them, which is what the
    scripts contribute, is translated statement by statement. *)

From Stdlib Require Import List ZArith Lia Bool String Ascii.
From Stdlib Require Import Permutation Sorted Floats.
Import ListNotations.

Set Implicit Arguments.

(** ** Python outcomes: a call returns a value or raises *)

Module Py.

Inductive exn : Type :=
| ValueError (msg : string)
| IndexError (msg : string)
| KeyError (msg : string)
| RuntimeError (msg : string)
| AttributeError (msg : string).

Inductive outcome (A : Type) : Type :=
| Returned (a : A)
| Raised (e : exn).
Arguments Returned {A} a.
Arguments Raised {A} e.

Definition bind {A B} (m : outcome A) (k : A -> outcome B) : outcome B :=
  match m with
  | Returned a => k a
  | Raised e => Raised e
  end.

(** A script also prints, plots and writes files.  A run is the list of
    the events it emitted, in order, with the way it ended. *)
Definition io (E A : Type) : Type := (list E * outcome A)%type.

Definition ret {E A} (a : A) : io E A := ([], Returned a).

Definition emit {E} (e : E) : io E unit := ([e], Returned tt).

Definition lift {E A} (m : outcome A) : io E A := ([], m).

Definition iobind {E A B} (m : io E A) (k : A -> io E B) : io E B :=
  match m with
  | (l, Returned a) => let (l', r) := k a in (l ++ l', r)
  | (l, Raised e) => (l, Raised e)
  end.

(** [for x in xs: ...] over a body that may raise. *)
Fixpoint traverse {A B} (f : A -> outcome B) (xs : list A) : outcome (list B) :=
  match xs with
  | [] => Returned []
  | x :: xs' =>
      bind (f x) (fun y => bind (traverse f xs') (fun ys => Returned (y :: ys)))
  end.

(** [range(lo, hi)] *)
Definition range (lo hi : Z) : list Z :=
  map (fun i => (lo + Z.of_nat i)%Z) (seq 0 (Z.to_nat (hi - lo))).

(** The line feed of a Python ["\n"]. *)
Definition LF : string := String (ascii_of_nat 10) EmptyString.

End Py.

Import Py.

Declare Scope py_scope.
Delimit Scope py_scope with py.
Notation "x <- m ;; k" := (iobind m (fun x => k))
  (at level 61, m at next level, right associativity) : py_scope.
Notation "m ;;; k" := (iobind m (fun _ => k))
  (at level 61, right associativity) : py_scope.

(** ** pandas and numpy operations the scripts use *)

Module Pandas.

Definition isna (x : float) : bool := PrimFloat.is_nan x.

(** [Series.isin(values)] on strings and on integer labels. *)
Definition isin_str (x : string) (values : list string) : bool :=
  existsb (String.eqb x) values.

Definition isin_int (x : Z) (values : list Z) : bool :=
  existsb (Z.eqb x) values.

(** [Series.unique()]: the distinct values, in order of first appearance. *)
Fixpoint unique (l : list Z) : list Z :=
  match l with
  | [] => []
  | x :: t => x :: filter (fun y => negb (Z.eqb y x)) (unique t)
  end.

(** [DataFrame.empty] *)
Definition empty {A} (df : list A) : bool :=
  match df with [] => true | _ :: _ => false end.

(** [DataFrame.head(n)]: the first [n] rows, and for a negative [n] all
    rows but the last [-n]. *)
Definition head {A} (n : Z) (df : list A) : list A :=
  if (0 <=? n)%Z then firstn (Z.to_nat n) df
  else firstn (List.length df - Z.to_nat (- n)) df.

(** Positional selection [a[indexer]] / [DataFrame.take(indexer)]: an
    index out of bounds raises. *)
Definition take {A} (a : list A) (indexer : list nat) : outcome (list A) :=
  traverse (fun i => match nth_error a i with
                     | Some x => Returned x
                     | None => Raised (IndexError "index out of bounds")
                     end) indexer.

Section Nargsort.

(** [numpy.ndarray.argsort(kind='quicksort')], numpy's default kind:
    the indices that sort an array without NaN into ascending order. *)
Variable argsort : list float -> list nat.

(** [pandas.core.sorting.nargsort(items, kind='quicksort',
    ascending=False, na_position='last')], the indexer behind
    [sort_values(by=..., ascending=False)]: the NaN positions are set
    aside, the rest is reversed, argsorted and reversed again, and the
    NaN positions are appended. *)
Definition nargsort_descending (items : list float) : outcome (list nat) :=
  let idx := seq 0 (List.length items) in
  let mask := map isna items in
  let keep := fun i => negb (nth i mask false) in
  let non_nans := filter (fun x => negb (isna x)) items in
  let non_nan_idx := filter keep idx in
  let nan_idx := filter (fun i => nth i mask false) idx in
  let non_nans := rev non_nans in
  let non_nan_idx := rev non_nan_idx in
  bind (take non_nan_idx (argsort non_nans)) (fun indexer =>
  let indexer := rev indexer in
  Returned (indexer ++ nan_idx)).

End Nargsort.

End Pandas.

Import Pandas.

(** ** stock_risk.py *)

Module StockRisk.

(** A row of the consolidated CSV.  A missing number is NaN; a missing
    sector is [None]. *)
Record stock_record : Type := {
  Ticker : string;
  Sector : option string;
  Market_Cap : float;
  PE_Ratio : float;
  Average_Return : float;
  Volatility : float
}.

(** A row after preprocessing: the sector is replaced by its indicator
    columns, one per sector of the table. *)
Record feature_row : Type := {
  f_Ticker : string;
  f_Market_Cap : float;
  f_PE_Ratio : float;
  f_Average_Return : float;
  f_Volatility : float;
  f_Sector : list (string * bool)
}.

(** A row of [indian_stocks_clusters.csv]. *)
Record clustered_row : Type := {
  features : feature_row;
  Cluster : Z
}.

(** A row of the recommendation table: the columns
    [['Ticker', 'Cluster', 'Average Return']]. *)
Record recommendation : Type := {
  r_Ticker : string;
  r_Cluster : Z;
  r_Average_Return : float
}.

Inductive event : Type :=
| Print (s : string)
| PrintTop (top_n : Z)
| PrintFrame (rows : list recommendation)
| ToCsv (path : string) (rows : list (string * Z)).

Definition columns (r : clustered_row) : recommendation :=
  {| r_Ticker := f_Ticker (features r);
     r_Cluster := Cluster r;
     r_Average_Return := f_Average_Return (features r) |}.

(** The holdings found in the table, their clusters, and the rows outside
    those clusters: the locals [user_stocks], [user_clusters] and
    [recommended_stocks] of [analyze_user_portfolio]. *)
Definition user_stocks (clustered_df : list clustered_row) (user_portfolio : list string)
  : list clustered_row :=
  filter (fun r => isin_str (f_Ticker (features r)) user_portfolio) clustered_df.

Definition user_clusters (clustered_df : list clustered_row) (user_portfolio : list string)
  : list Z :=
  unique (map Cluster (user_stocks clustered_df user_portfolio)).

Definition recommended_stocks (clustered_df : list clustered_row)
    (user_portfolio : list string) : list clustered_row :=
  filter (fun r => negb (isin_int (Cluster r) (user_clusters clustered_df user_portfolio)))
         clustered_df.

Section Recommend.

Variable argsort : list float -> list nat.

(** [df.sort_values(by='Average Return', ascending=False)] *)
Definition sort_values (df : list clustered_row) : outcome (list clustered_row) :=
  bind (nargsort_descending argsort
          (map (fun r => f_Average_Return (features r)) df))
       (take df).

(** [analyze_user_portfolio(clustered_df, user_portfolio, top_n=5)].
    The empty [pd.DataFrame()] is the table with no rows. *)
Definition analyze_user_portfolio (clustered_df : list clustered_row)
    (user_portfolio : list string) (top_n : Z)
  : io event (list recommendation) :=
 (emit (Print (LF ++ "Analyzing user portfolio...")%string) ;;;
  let user_stocks := user_stocks clustered_df user_portfolio in
  if empty user_stocks then
    emit (Print "No matching stocks found in the clustering results for the user portfolio.") ;;;
    ret []
  else
    emit (ToCsv "user_portfolio_clusters.csv"
            (map (fun r => (f_Ticker (features r), Cluster r)) user_stocks)) ;;;
    let recommended_stocks := recommended_stocks clustered_df user_portfolio in
    if empty recommended_stocks then
      emit (Print "No clusters available for recommendations outside the user's current clusters.") ;;;
      ret []
    else
      recommended_stocks_sorted <- lift (sort_values recommended_stocks) ;;
      let top_recommendations := head top_n recommended_stocks_sorted in
      emit (PrintTop top_n) ;;;
      emit (PrintFrame (map columns top_recommendations)) ;;;
      ret (map columns top_recommendations))%py.

End Recommend.

Definition default_top_n : Z := 5.

(** A row to read a frame with at a position it may not have. *)
Definition blank : clustered_row :=
  {| features := {| f_Ticker := ""; f_Market_Cap := nan; f_PE_Ratio := nan;
                    f_Average_Return := nan; f_Volatility := nan; f_Sector := [] |};
     Cluster := 0 |}.


(** Rows of equal average return stand in the order they have in the
    table: what a stable sort of the candidates would give. *)
Definition ties_in_table_order (clustered_df : list clustered_row)
    (recs : list recommendation) : Prop :=
  forall i j ri rj,
    i < j -> nth_error recs i = Some ri -> nth_error recs j = Some rj ->
    (r_Average_Return ri =? r_Average_Return rj)%float = true ->
    exists p q, p < q /\
      nth_error (map columns clustered_df) p = Some ri /\
      nth_error (map columns clustered_df) q = Some rj.

(** *** Preprocessing *)

(** [df.dropna(subset=essential_columns)]: pandas counts [None] and NaN as
    missing, not the infinities. *)
Definition has_essential (r : stock_record) : bool :=
  match Sector r with
  | None => false
  | Some _ =>
      negb (isna (Market_Cap r)) && negb (isna (PE_Ratio r))
      && negb (isna (Average_Return r)) && negb (isna (Volatility r))
  end.

(** The sectors of a table in sorted order without repeats: the categories
    [pd.get_dummies] builds its columns from. *)
Fixpoint insert_sector (s : string) (l : list string) : list string :=
  match l with
  | [] => [s]
  | x :: t =>
      if String.eqb s x then l
      else if String.ltb s x then s :: l
      else x :: insert_sector s t
  end.

Definition sector_categories (df : list stock_record) : list string :=
  fold_right (fun r acc => match Sector r with
                           | Some s => insert_sector s acc
                           | None => acc
                           end) [] df.

(** One row of [pd.get_dummies(df_clean['Sector'], prefix='Sector')]. *)
Definition get_dummies_row (categories : list string) (r : stock_record)
  : list (string * bool) :=
  map (fun c => (("Sector_" ++ c)%string,
                 match Sector r with
                 | Some s => String.eqb s c
                 | None => false
                 end)) categories.

(** [.replace([np.inf, -np.inf], np.nan)] on one cell. *)
Definition replace_inf (x : float) : float :=
  if ((x =? infinity) || (x =? neg_infinity))%float then nan else x.

(** The four numeric columns of a row, in the order of
    [numerical_features]. *)
Definition numeric : Type := (float * float * float * float)%type.

Definition numerical_features (r : feature_row) : numeric :=
  (f_Market_Cap r, f_PE_Ratio r, f_Average_Return r, f_Volatility r).

Definition set_numerical_features (r : feature_row) (v : numeric) : feature_row :=
  let '(mc, pe, ar, vol) := v in
  {| f_Ticker := f_Ticker r;
     f_Market_Cap := mc;
     f_PE_Ratio := pe;
     f_Average_Return := ar;
     f_Volatility := vol;
     f_Sector := f_Sector r |}.

Definition map_numeric (g : float -> float) (v : numeric) : numeric :=
  let '(mc, pe, ar, vol) := v in (g mc, g pe, g ar, g vol).

Definition any_numeric (p : float -> bool) (v : numeric) : bool :=
  let '(mc, pe, ar, vol) := v in p mc || p pe || p ar || p vol.

(** The four numbers are neither missing nor infinite. *)
Definition all_finite (v : numeric) : Prop :=
  any_numeric (fun x => negb (is_finite x)) v = false.

(** The frame handed to the scaler: steps 3.1 to 3.4 of [preprocess_data]. *)
Definition clean (df : list stock_record) : list feature_row :=
  let df_clean := filter has_essential df in
  let categories := sector_categories df_clean in
  let df_final :=
    map (fun r => {| f_Ticker := Ticker r;
                     f_Market_Cap := Market_Cap r;
                     f_PE_Ratio := PE_Ratio r;
                     f_Average_Return := Average_Return r;
                     f_Volatility := Volatility r;
                     f_Sector := get_dummies_row categories r |}) df_clean in
  let df_final :=
    map (fun r => set_numerical_features r
                    (map_numeric replace_inf (numerical_features r))) df_final in
  filter (fun r => negb (any_numeric isna (numerical_features r))) df_final.

Section Preprocess.

(** [StandardScaler().fit_transform]: scikit-learn's standardization of the
    numeric columns; it raises on a frame it cannot take (one with no row). *)
Variable fit_transform : list numeric -> outcome (list numeric).

(** [preprocess_data(input_csv)], on the table [pd.read_csv] returned.
    Assigning the scaled array back needs as many rows as the frame has. *)
Definition preprocess_data (df : list stock_record) : io event (list feature_row) :=
 (emit (Print (LF ++ "Preprocessing data...")%string) ;;;
  emit (Print "Loading the latest diversification metrics...") ;;;
  let df_final := clean df in
  scaled <- lift (fit_transform (map numerical_features df_final)) ;;
  if Nat.eqb (List.length scaled) (List.length df_final) then
    let df_final := map (fun '(r, v) => set_numerical_features r v)
                        (combine df_final scaled) in
    emit (Print "Preprocessing completed.") ;;;
    ret df_final
  else
    lift (Raised (ValueError "Shape of passed values does not match the frame")))%py.

End Preprocess.

(** *** Number of clusters *)

Section Clusters.

(** The feature matrix: one list of numbers per row. *)
Definition matrix : Type := list (list float).

(** [KMeans(n_clusters=k, init='k-means++', random_state=42).fit_predict(X)]
    with the fitted [inertia_], and [silhouette_score(X, labels)]. *)
Variable KMeans_fit_predict : matrix -> Z -> outcome (list Z * float).
Variable silhouette_score : matrix -> list Z -> outcome float.

(** The [for k in K] loop of [determine_optimal_clusters], threading the
    two score lists. *)
Fixpoint score_candidates (X : matrix) (K : list Z) (wcss silhouette_scores : list float)
  : outcome (list float * list float) :=
  match K with
  | [] => Returned (wcss, silhouette_scores)
  | k :: K' =>
      bind (KMeans_fit_predict X k) (fun '(labels, inertia_) =>
      let wcss := wcss ++ [inertia_] in
      bind (silhouette_score X labels) (fun score =>
      let silhouette_scores := silhouette_scores ++ [score] in
      score_candidates X K' wcss silhouette_scores))
  end.

(** [determine_optimal_clusters(X, max_k=10)] *)
Definition determine_optimal_clusters (X : matrix) (max_k : Z) : outcome Z :=
  let K := range 2 (max_k + 1) in
  bind (score_candidates X K [] []) (fun '(wcss, silhouette_scores) =>
  let optimal_k := 8%Z in
  Returned optimal_k).

(** The labels [perform_clustering(X, n_clusters)] returns. *)
Definition perform_clustering (X : matrix) (n_clusters : Z) : outcome (list Z) :=
  bind (KMeans_fit_predict X n_clusters) (fun '(labels, _) => Returned labels).

End Clusters.

End StockRisk.

(** ** prophet.py *)

Module Forecast.

(** A row of the frame Prophet takes (columns [ds], [y]) and of the frame
    the ARMA functions take (columns [Date], [Close]).  A date is its
    proleptic Gregorian ordinal. *)
Record prophet_row : Type := { ds : Z; y : float }.

Record arma_row : Type := { Date : Z; Close : float }.

(** A row of a Prophet forecast. *)
Record forecast_row : Type := {
  fc_ds : Z;
  yhat : float;
  yhat_lower : float;
  yhat_upper : float
}.

(** A row of the table [get_future_prediction_metrics_prophet] builds. *)
Record metrics_row : Type := {
  date : Z;
  predicted_price : float;
  lower_bound : float;
  upper_bound : float
}.

Inductive model_name : Type := ARMA | Prophet.

Inductive event : Type :=
| Print (s : string)
| PrintPredictions (rows : list (Z * float))
| PrintIncreased (percentage_change : float)
| PrintDecreased (percentage_change : float)
| PlotProphet (future_predictions : list forecast_row)
| PlotArma (arma_forecast : list (Z * float)).

(** What [yf.download] is asked for. *)
Inductive query : Type :=
| Period (period : string)
| Range (start_date end_date : string).

(** The index normalisation of a Python slice bound. *)
Definition slice_bound (len i : Z) : Z :=
  if (i <? 0)%Z then Z.max (len + i) 0 else Z.min i len.

(** [df.iloc[start:stop]], a bound left out being [None]. *)
Definition iloc {A} (df : list A) (start stop : option Z) : list A :=
  let n := Z.of_nat (List.length df) in
  let a := match start with None => 0%Z | Some i => slice_bound n i end in
  let b := match stop with None => n | Some j => slice_bound n j end in
  firstn (Z.to_nat (b - a)) (skipn (Z.to_nat a) df).

(** [df.tail(n)] for [n >= 0]. *)
Definition tail {A} (n : nat) (df : list A) : list A :=
  skipn (List.length df - n) df.

(** [select_better_model(arma_mse, prophet_mse)] *)
Definition select_better_model (arma_mse prophet_mse : float) : model_name :=
  if (arma_mse <? prophet_mse)%float then ARMA else Prophet.

(** The two [for i in range(1, len(vals))] loops of [determine_arma_order]:
    [cutoff vals i threshold] runs the loop from lag [i] on, [vals] being
    the values from that lag on; the order stays 0 when the loop ends
    without a [break]. *)
Fixpoint cutoff (vals : list float) (i : nat) (threshold : float) : nat :=
  match vals with
  | [] => 0
  | v :: rest => if (abs v <? threshold)%float then i else cutoff rest (S i) threshold
  end.

(** [p] is the first lag from 1 to [max_lag] at which the magnitude of
    [vals] is below [threshold], and 0 when there is no such lag. *)
Definition first_lag_below (vals : list float) (max_lag : nat) (threshold : float)
    (p : nat) : Prop :=
  (1 <= p <= max_lag /\
   (abs (nth p vals nan) <? threshold)%float = true /\
   forall i, 1 <= i < p -> (abs (nth i vals nan) <? threshold)%float = false)
  \/ (p = 0 /\
      forall i, 1 <= i <= max_lag -> (abs (nth i vals nan) <? threshold)%float = false).

(** [date.weekday()]: Monday is 0. *)
Definition weekday (d : Z) : Z := ((d + 6) mod 7)%Z.

(** The [while len(future_dates) < 7] loop of [main], for [n] dates still
    to find; every pass moves one day on, so [fuel] bounds the passes. *)
Fixpoint business_days (fuel : nat) (current_date : Z) (n : nat) : list Z :=
  match fuel, n with
  | _, 0 => []
  | 0, _ => []
  | S fuel', S n' =>
      let current_date := (current_date + 1)%Z in
      if (weekday current_date <? 5)%Z
      then current_date :: business_days fuel' current_date n'
      else business_days fuel' current_date n
  end.

(** The network and the statistical libraries the script calls. *)
Class Libraries : Type := {
  (** [yf.download], as rows of date and closing price *)
  yf_download : string -> query -> outcome (list (Z * float));
  prophet_model : Type;
  (** [Prophet(...)] followed by [model.fit(train_df)] *)
  Prophet_fit : list prophet_row -> outcome prophet_model;
  (** [model.predict(model.make_future_dataframe(periods))] *)
  Prophet_predict : prophet_model -> Z -> outcome (list forecast_row);
  mean_squared_error : list float -> list float -> outcome float;
  (** [pacf(series, nlags, method='ols')] and [acf(series, nlags)] *)
  pacf : list float -> nat -> outcome (list float);
  acf : list float -> nat -> outcome (list float);
  arma_model : Type;
  (** [ARIMA(series, order=(p, 0, q)).fit()] *)
  ARIMA_fit : list float -> nat * nat * nat -> outcome arma_model;
  (** [model_fit.forecast(steps)] and [model_fit.get_forecast(steps).predicted_mean] *)
  ARIMA_forecast : arma_model -> nat -> outcome (list float);
  ARIMA_get_forecast : arma_model -> nat -> outcome (list float);
  (** [.round(2)] *)
  round2 : float -> float
}.

(** The number of dates [business_days] finds, read off the weekday alone. *)
Fixpoint business_days_found (fuel : nat) (w : Z) (n : nat) : nat :=
  match fuel, n with
  | _, 0 => 0
  | 0, _ => 0
  | S fuel', S n' =>
      let w := ((w + 1) mod 7)%Z in
      if (w <? 5)%Z then S (business_days_found fuel' w n')
      else business_days_found fuel' w n
  end.

Section Pipeline.

Context {libraries : Libraries}.

(** [get_stock_data_prophet(ticker, period='2y')]: nothing is caught. *)
Definition get_stock_data_prophet (ticker period : string) : outcome (list prophet_row) :=
  bind (yf_download ticker (Period period)) (fun stock =>
  Returned (map (fun '(d, c) => {| ds := d; y := c |}) stock)).

(** [forecast.set_index('ds').loc[dates]]: a date that is no label raises. *)
Definition loc_ds (forecast : list forecast_row) (dates : list Z)
  : outcome (list forecast_row) :=
  traverse (fun d => match find (fun r => Z.eqb (fc_ds r) d) forecast with
                     | Some r => Returned r
                     | None => Raised (KeyError "not in index")
                     end) dates.

Record prophet_result : Type := {
  model : prophet_model;
  forecast : list forecast_row;
  mse : float;
  future_predictions : list forecast_row
}.

(** [train_and_predict_prophet(train_df, test_df, future_days=7)]: the body
    of the [try], and the handler, which raises the exception again. *)
Definition train_and_predict_prophet (train_df test_df : list prophet_row)
    (future_days : nat) : outcome prophet_result :=
  let body :=
    bind (Prophet_fit train_df) (fun model =>
    bind (Prophet_predict model (Z.of_nat (List.length test_df + future_days)))
      (fun forecast =>
    bind (loc_ds forecast (map ds test_df)) (fun test_forecast =>
    bind (mean_squared_error (map y test_df) (map yhat test_forecast)) (fun mse =>
    bind (Prophet_predict model (Z.of_nat future_days)) (fun future_forecast =>
    let future_predictions := tail future_days future_forecast in
    Returned {| model := model; forecast := forecast; mse := mse;
                future_predictions := future_predictions |}))))) in
  match body with
  | Returned r => Returned r
  | Raised e => Raised e
  end.

(** [get_future_prediction_metrics_prophet(future_predictions)] *)
Definition get_future_prediction_metrics_prophet
    (future_predictions : list forecast_row) : list metrics_row :=
  map (fun r => {| date := fc_ds r;
                   predicted_price := round2 (yhat r);
                   lower_bound := round2 (yhat_lower r);
                   upper_bound := round2 (yhat_upper r) |}) future_predictions.

(** [get_stock_data_arma(ticker, start_date, end_date)]: an empty download
    raises inside the [try], and every exception becomes [None]. *)
Definition get_stock_data_arma (ticker start_date end_date : string)
  : option (list arma_row) :=
  match yf_download ticker (Range start_date end_date) with
  | Returned stock =>
      if empty stock then None
      else Some (map (fun '(d, c) => {| Date := d; Close := c |}) stock)
  | Raised _ => None
  end.

(** [determine_arma_order(series, max_lag=10, threshold=0.2)] *)
Definition determine_arma_order (series : list float) (max_lag : nat)
    (threshold : float) : outcome (nat * nat) :=
  bind (pacf series max_lag) (fun pacf_vals =>
  bind (acf series max_lag) (fun acf_vals =>
  let p := cutoff (List.tl pacf_vals) 1 threshold in
  let q := cutoff (List.tl acf_vals) 1 threshold in
  Returned (p, q))).

Definition default_max_lag : nat := 10.
(** Python's [0.2]: the binary64 number nearest to one fifth. *)
Definition default_threshold : float := 0x1.999999999999ap-3%float.

(** [fit_arma_model(series, order)] *)
Definition fit_arma_model (series : list float) (order : nat * nat)
  : option arma_model :=
  match ARIMA_fit series (fst order, 0, snd order) with
  | Returned model_fit => Some model_fit
  | Raised _ => None
  end.

(** [predict_arma(model_fit, steps=30)] *)
Definition predict_arma (model_fit : arma_model) (steps : nat) : option (list float) :=
  match ARIMA_get_forecast model_fit steps with
  | Returned predicted_prices => Some predicted_prices
  | Raised _ => None
  end.

(** [evaluate_arma(df, ticker)].  Giving the prediction the index of the
    test rows is inside the [try] and needs as many values as test rows. *)
Definition evaluate_arma (df : list arma_row) (ticker : string) : outcome float :=
  let arma_train := iloc df (Some (-32)%Z) (Some (-2)%Z) in
  let arma_test := iloc df (Some (-2)%Z) None in
  if (List.length arma_train <? 30) || (List.length arma_test <? 2) then
    Returned infinity
  else
    let arma_train := map Close arma_train in
    let arma_test := map Close arma_test in
    bind (determine_arma_order arma_train default_max_lag default_threshold)
      (fun arma_order =>
    match fit_arma_model arma_train arma_order with
    | None => Returned infinity
    | Some arma_model =>
        match ARIMA_forecast arma_model 2 with
        | Raised _ => Returned infinity
        | Returned arma_pred =>
            if negb (List.length arma_pred =? List.length arma_test) then
              Returned infinity
            else mean_squared_error arma_test arma_pred
        end
    end).

(** The names the Prophet branch of [main] binds, all at once; when the
    history is too short only [prophet_mse] is bound, which nothing reads. *)
Record prophet_locals : Type := {
  train_df_prophet : list prophet_row;
  test_df_prophet : list prophet_row;
  fitted : prophet_result;
  future_metrics_prophet : list metrics_row
}.

(** The section "Prophet Model Execution" of [main]: [Some] exactly when
    [mse_prophet], [model_prophet] and [future_metrics_prophet] get bound.
    Nothing around [train_and_predict_prophet] catches what it raises. *)
Definition prophet_execution (ticker : string) : outcome (option prophet_locals) :=
  bind (get_stock_data_prophet ticker "2y") (fun df_prophet =>
  if List.length df_prophet <? 10 then
    let prophet_mse := infinity in
    Returned None
  else
    let train_df_prophet := iloc df_prophet None (Some (-2)%Z) in
    let test_df_prophet := iloc df_prophet (Some (-2)%Z) None in
    bind (train_and_predict_prophet train_df_prophet test_df_prophet 7) (fun r =>
    Returned (Some {| train_df_prophet := train_df_prophet;
                      test_df_prophet := test_df_prophet;
                      fitted := r;
                      future_metrics_prophet :=
                        get_future_prediction_metrics_prophet (future_predictions r) |}))).

(** The section "ARMA Model Execution" of [main], which binds [arma_mse] on
    every path. *)
Definition arma_execution (ticker : string) (df_arma : option (list arma_row))
  : outcome float :=
  match df_arma with
  | None => Returned infinity
  | Some df =>
      let required_days_arma := 30 + 2 in
      if List.length df <? required_days_arma then Returned infinity
      else evaluate_arma df ticker
  end.

(** [better_model]: ['arma_mse' in locals()] always holds, so the test is
    whether [mse_prophet] is bound. *)
Definition better_model (prophet : option prophet_locals) (arma_mse : float)
  : model_name :=
  match prophet with
  | Some l => select_better_model arma_mse (mse (fitted l))
  | None => if (arma_mse <? infinity)%float then ARMA else Prophet
  end.

(** The backtest error the comparison gives the trend model: its own when
    it was fitted, and infinity when its history was too short. *)
Definition prophet_score (prophet : option prophet_locals) : float :=
  match prophet with
  | Some l => mse (fitted l)
  | None => infinity
  end.

(** The ARMA branch of the plotting step.  The result tells what the name
    [arma_forecast] holds afterwards: [None] when it was not bound, and
    [Some v] when it was bound to [v], which is [None] when [predict_arma]
    returned [None]. *)
Definition arma_forecasting (df_arma : option (list arma_row))
  : io event (option (option (list float))) :=
 (match df_arma with
  | None => ret None
  | Some df =>
      if 32 <=? List.length df then
        let arma_train_full := map Close (iloc df (Some (-32)%Z) (Some (-2)%Z)) in
        arma_order_full <-
          lift (determine_arma_order arma_train_full default_max_lag default_threshold) ;;
        match fit_arma_model arma_train_full arma_order_full with
        | None => ret None
        | Some arma_model_full =>
            match predict_arma arma_model_full 7 with
            | None => ret (Some None)
            | Some arma_forecast =>
                let last_date :=
                  fold_right Z.max (Date (hd {| Date := 0; Close := nan |} df))
                             (map Date df) in
                let future_dates := business_days 21 last_date 7 in
                if negb (List.length arma_forecast =? List.length future_dates) then
                  lift (Raised (ValueError "Length mismatch"))
                else
                  emit (PlotArma (combine future_dates arma_forecast)) ;;;
                  ret (Some (Some arma_forecast))
            end
        end
      else ret None
  end)%py.

(** [main(sticke)].  ['arma_forecast' in locals()] holds as soon as the
    name was bound, also to [None]; reading [.index] of [None] raises. *)
Definition main (sticke : string) : io event unit :=
 (let ticker := sticke in
  prophet <- lift (prophet_execution ticker) ;;
  let df_arma := get_stock_data_arma ticker "2022-11-06" "2024-11-06" in
  arma_mse <- lift (arma_execution ticker df_arma) ;;
  emit (Print "Finding the better model...") ;;;
  let better_model := better_model prophet arma_mse in
  arma_forecast <-
    match better_model, prophet with
    | Prophet, Some l =>
        emit (PlotProphet (future_predictions (fitted l))) ;;; ret None
    | Prophet, None => ret None
    | ARMA, _ => arma_forecasting df_arma
    end ;;
  emit (Print "predicting with the best model and plotting...") ;;;
  match better_model, prophet, arma_forecast with
  | Prophet, Some l, _ =>
      emit (Print (LF ++ "Future Predictions for next 7 days with Prophet:")%string) ;;;
      emit (PrintPredictions
              (map (fun r => (date r, predicted_price r)) (future_metrics_prophet l)))
  | ARMA, _, Some None =>
      lift (Raised (AttributeError "'NoneType' object has no attribute 'index'"))
  | ARMA, _, Some (Some arma_forecast) =>
      let future_predictions_arma := map round2 arma_forecast in
      let first_price := hd nan future_predictions_arma in
      let last_price := last future_predictions_arma nan in
      let percentage_change := (((last_price - first_price) / first_price) * 100)%float in
      if (0 <? percentage_change)%float then emit (PrintIncreased percentage_change)
      else emit (PrintDecreased (abs percentage_change))
  | _, _, _ =>
      emit (Print (LF ++ "No predictions available.")%string)
  end)%py.

End Pipeline.

End Forecast.

(** ** Library instances

    Concrete functions standing for the libraries where a statement needs
    one: a stable insertion sort, and numpy's own quicksort, which is what
    [kind='quicksort'] runs and which does not keep equal keys in order. *)

Module Numpy.

Definition key (a : list float) (i : nat) : float := nth i a nan.

(** Insertion of index [i] before the first index whose key is not smaller. *)
Fixpoint insert_index (a : list float) (i : nat) (sorted : list nat) : list nat :=
  match sorted with
  | [] => [i]
  | j :: rest =>
      if (key a i <=? key a j)%float then i :: sorted
      else j :: insert_index a i rest
  end.

(** Insertion sort from the last index down: equal keys keep their order,
    as [kind='stable'] does. *)
Definition argsort_stable (a : list float) : list nat :=
  fold_right (insert_index a) [] (seq 0 (List.length a)).

(** What numpy documents of [argsort] on an array without NaN: the result
    is a permutation of the positions, and reading the array in that order
    gives ascending keys. *)
Definition sorts (argsort : list float -> list nat) : Prop :=
  forall a, Forall (fun x => isna x = false) a ->
    Permutation (argsort a) (seq 0 (List.length a)) /\
    StronglySorted (fun i j => (key a i <=? key a j)%float = true) (argsort a).

(** A stable argsort also lists positions of equal keys in increasing order. *)
Definition stable (argsort : list float -> list nat) : Prop :=
  forall a, Forall (fun x => isna x = false) a ->
    StronglySorted (fun i j => (key a i =? key a j)%float = true -> i < j) (argsort a).

(** The order of two positions of an array by their keys. *)
Definition le_at (a : list float) (i j : nat) : Prop :=
  (key a i <=? key a j)%float = true.

(** Keys that never ascend: no key is smaller than a later one.  NaN, which
    compares false with everything, may stand anywhere. *)
Definition never_ascending (keys : list float) : Prop :=
  StronglySorted (fun x y => (x <? y)%float = false) keys.

(** Positions of equal keys are listed in increasing order. *)
Definition ties_ascending (items : list float) (indexer : list nat) : Prop :=
  StronglySorted (fun a b => (key items a =? key items b)%float = true -> a < b) indexer.

(** *** numpy's quicksort

    [aquicksort_] of numpy's [npysort/quicksort.cpp], the scalar routine
    behind [argsort(kind='quicksort')] on an array of doubles: an
    introsort on the index array [tosort], with a median of three as
    pivot, Hoare's partition, and insertion sort for a range of at most 17
    positions.  Positions in [tosort] stand for the pointers [pl], [pr],
    [pm], [pi], [pj] and [pk]. *)

(** [npy::double_tag::less]: NaN counts as the largest. *)
Definition less (a b : float) : bool :=
  (a <? b)%float || (isna b && negb (isna a)).

(** [*p] and [*p = x] *)
Definition deref (tosort : list nat) (p : nat) : nat := nth p tosort 0.

Fixpoint store (tosort : list nat) (p x : nat) : list nat :=
  match tosort, p with
  | [], _ => []
  | _ :: t, 0 => x :: t
  | y :: t, S p' => y :: store t p' x
  end.

Definition INTP_SWAP (tosort : list nat) (p q : nat) : list nat :=
  store (store tosort p (deref tosort q)) q (deref tosort p).

(** [v[*p]] *)
Definition val (v : list float) (tosort : list nat) (p : nat) : float :=
  key v (deref tosort p).

Definition SMALL_QUICKSORT : nat := 16.

(** The three conditional swaps that leave the median at [pm]. *)
Definition median_of_three (v : list float) (tosort : list nat) (pl pm pr : nat)
  : list nat :=
  let tosort := if less (val v tosort pm) (val v tosort pl)
                then INTP_SWAP tosort pm pl else tosort in
  let tosort := if less (val v tosort pr) (val v tosort pm)
                then INTP_SWAP tosort pr pm else tosort in
  if less (val v tosort pm) (val v tosort pl) then INTP_SWAP tosort pm pl else tosort.

(** [do { ++pi; } while (less(v[*pi], vp));] *)
Fixpoint scan_up (fuel : nat) (v : list float) (tosort : list nat) (vp : float)
    (pi : nat) : nat :=
  match fuel with
  | 0 => pi
  | S fuel' =>
      let pi := S pi in
      if less (val v tosort pi) vp then scan_up fuel' v tosort vp pi else pi
  end.

(** [do { --pj; } while (less(vp, v[*pj]));] *)
Fixpoint scan_down (fuel : nat) (v : list float) (tosort : list nat) (vp : float)
    (pj : nat) : nat :=
  match fuel with
  | 0 => pj
  | S fuel' =>
      let pj := pj - 1 in
      if less vp (val v tosort pj) then scan_down fuel' v tosort vp pj else pj
  end.

(** The [for (;;)] loop of the partition; it returns the index array and
    [pi]. *)
Fixpoint partition (fuel : nat) (v : list float) (tosort : list nat) (vp : float)
    (pi pj : nat) : list nat * nat :=
  match fuel with
  | 0 => (tosort, pi)
  | S fuel' =>
      let pi := scan_up (List.length tosort) v tosort vp pi in
      let pj := scan_down (List.length tosort) v tosort vp pj in
      if pj <=? pi then (tosort, pi)
      else partition fuel' v (INTP_SWAP tosort pi pj) vp pi pj
  end.

(** [while (pj > pl && less(vp, v[*pk])) { *pj-- = *pk--; } *pj = vi;] with
    [pk = pj - 1]. *)
Fixpoint shift (fuel : nat) (v : list float) (tosort : list nat) (pl vi : nat)
    (vp : float) (pj : nat) : list nat :=
  match fuel with
  | 0 => store tosort pj vi
  | S fuel' =>
      if (pl <? pj) && less vp (val v tosort (pj - 1))
      then shift fuel' v (store tosort pj (deref tosort (pj - 1))) pl vi vp (pj - 1)
      else store tosort pj vi
  end.

(** The insertion sort of the range from [pl] to [pr]: [count] passes of
    [for (pi = pl + 1; pi <= pr; ++pi)]. *)
Fixpoint insertion (count : nat) (v : list float) (tosort : list nat) (pl pi : nat)
  : list nat :=
  match count with
  | 0 => tosort
  | S count' =>
      let vi := deref tosort pi in
      let vp := key v vi in
      let tosort := shift pi v tosort pl vi vp pi in
      insertion count' v tosort pl (S pi)
  end.

(** The work on the range from [pl] to [pr], and on the ranges it puts on
    its stack.  A range taken from the stack ([popped]) with a negative
    depth goes to heapsort, which is not modelled: the result is [None]. *)
Fixpoint aquicksort_range (fuel : nat) (v : list float) (tosort : list nat)
    (pl pr : nat) (cdepth : Z) (popped : bool) : option (list nat) :=
  match fuel with
  | 0 => None
  | S fuel' =>
      if popped && (cdepth <? 0)%Z then None
      else if SMALL_QUICKSORT <? pr - pl then
        let pm := pl + Nat.div2 (pr - pl) in
        let tosort := median_of_three v tosort pl pm pr in
        let vp := val v tosort pm in
        let pi := pl in
        let pj := pr - 1 in
        let tosort := INTP_SWAP tosort pm pj in
        let '(tosort, pi) := partition (pr - pl) v tosort vp pi pj in
        let pk := pr - 1 in
        let tosort := INTP_SWAP tosort pi pk in
        let cdepth := (cdepth - 1)%Z in
        if pi - pl <? pr - pi then
          match aquicksort_range fuel' v tosort pl (pi - 1) cdepth false with
          | Some tosort => aquicksort_range fuel' v tosort (pi + 1) pr cdepth true
          | None => None
          end
        else
          match aquicksort_range fuel' v tosort (pi + 1) pr cdepth false with
          | Some tosort => aquicksort_range fuel' v tosort pl (pi - 1) cdepth true
          | None => None
          end
      else Some (insertion (pr - pl) v tosort pl (S pl))
  end.

(** [aquicksort_(v, tosort, num)] on [tosort = 0, 1, ..., num - 1], with
    the depth limit [npy_get_msb(num) * 2]. *)
Definition aquicksort (v : list float) : option (list nat) :=
  let num := List.length v in
  aquicksort_range (S num) v (seq 0 num) 0 (num - 1) (Z.log2 (Z.of_nat num) * 2) false.

(** [a.argsort(kind='quicksort')], as far as quicksort alone does it. *)
Definition argsort_quicksort (a : list float) : list nat :=
  match aquicksort a with
  | Some tosort => tosort
  | None => []
  end.

End Numpy.

Module Sklearn.

Import StockRisk.

(** [KMeans.fit_predict] as far as its check of the arguments goes:
    scikit-learn refuses more clusters than samples.  The labels it
    returns otherwise are not modelled; here row [i] gets label [i mod k]. *)
Definition KMeans_fit_predict (X : matrix) (n_clusters : Z) : outcome (list Z * float) :=
  if (Z.of_nat (List.length X) <? n_clusters)%Z then
    Raised (ValueError "n_samples should be >= n_clusters")
  else
    Returned (map (fun i => (Z.of_nat i mod n_clusters)%Z) (seq 0 (List.length X)),
              0%float).

(** [silhouette_score] as far as its check of the labels goes: it wants
    between 2 and [n_samples - 1] distinct labels. *)
Definition silhouette_score (X : matrix) (labels : list Z) : outcome float :=
  let n_labels := List.length (unique labels) in
  if (2 <=? n_labels) && (n_labels <=? List.length X - 1) then Returned 0%float
  else Raised (ValueError "Number of labels is invalid: valid values are 2 to n_samples - 1").

(** *** StandardScaler

    [StandardScaler().fit_transform(X)] of scikit-learn on a frame of
    binary64 numbers, column by column: the mean and the variance as
    [_incremental_mean_and_var] computes them on a first batch, the scale
    as [_handle_zeros_in_scale] sets it, and [(x - mean_) / scale_].  Sums
    run down the rows in order. *)

Definition eps : float := 0x1p-52%float.

Definition sum (xs : list float) : float := fold_left add xs 0%float.

Definition standardize (column : list float) : list float :=
  let n_samples := of_uint63 (Uint63.of_Z (Z.of_nat (List.length column))) in
  let new_sum := sum column in
  let mean_ := (new_sum / n_samples)%float in
  let T := (new_sum / n_samples)%float in
  let temp := map (fun x => (x - T)%float) column in
  let correction := sum temp in
  let temp := map (fun t => (t * t)%float) temp in
  let new_unnormalized_variance := sum temp in
  let new_unnormalized_variance :=
    (new_unnormalized_variance - correction * correction / n_samples)%float in
  let var_ := (new_unnormalized_variance / n_samples)%float in
  let upper_bound :=
    (n_samples * eps * var_ + (n_samples * mean_ * eps) * (n_samples * mean_ * eps))%float in
  let constant_mask := (var_ <=? upper_bound)%float in
  let scale_ := if constant_mask then 1%float else sqrt var_ in
  map (fun x => ((x - mean_) / scale_)%float) column.

(** The scaler on the four numeric columns.  [check_array] refuses a frame
    with no row and a frame with an infinite value; [preprocess_data]
    hands over no missing value, which the fit would pass over and which
    is refused here as well. *)
Definition StandardScaler_fit_transform (X : list numeric) : outcome (list numeric) :=
  if empty X then Raised (ValueError "Found array with 0 sample(s)")
  else if existsb (any_numeric (fun x => negb (is_finite x))) X then
    Raised (ValueError "Input contains infinity")
  else
    let c1 := standardize (map (fun '(mc, _, _, _) => mc) X) in
    let c2 := standardize (map (fun '(_, pe, _, _) => pe) X) in
    let c3 := standardize (map (fun '(_, _, ar, _) => ar) X) in
    let c4 := standardize (map (fun '(_, _, _, vol) => vol) X) in
    Returned (map (fun '(mc, pe, ar, vol) => (mc, pe, ar, vol))
                  (combine (combine (combine c1 c2) c3) c4)).

(** [mean_squared_error] on two series of numbers: it refuses series of
    different lengths and values that are not finite. *)
Definition mean_squared_error (y_true y_pred : list float) : outcome float :=
  if negb (List.length y_true =? List.length y_pred) then
    Raised (ValueError "Found input variables with inconsistent numbers of samples")
  else if existsb (fun v => negb (is_finite v)) (y_true ++ y_pred) then
    Raised (ValueError "Input contains NaN or infinity")
  else
    let squares := map (fun '(t, p) => ((t - p) * (t - p))%float) (combine y_true y_pred) in
    Returned (fold_left add squares 0 / of_uint63 (Uint63.of_Z (Z.of_nat (List.length y_true))))%float.

End Sklearn.

(** ** Scenarios

    The tables and runs the statements below are tried on. *)

Module Scenarios.

Import StockRisk.

Definition row (ticker : string) (cluster : Z) (average_return : float) : clustered_row :=
  {| features := {| f_Ticker := ticker;
                    f_Market_Cap := 0%float;
                    f_PE_Ratio := 0%float;
                    f_Average_Return := average_return;
                    f_Volatility := 0%float;
                    f_Sector := [] |};
     Cluster := cluster |}.

(** A universe of three clusters; ["A"] and ["B"] are in cluster 0. *)
Definition universe : list clustered_row :=
  [ row "A" 0 1; row "B" 0 3; row "C" 1 0.5; row "D" 2 2;
    row "E" 1 0.5; row "F" 2 0.25; row "G" 1 4; row "H" 2 0.75 ].

Definition rec (ticker : string) (cluster : Z) (average_return : float) : recommendation :=
  {| r_Ticker := ticker; r_Cluster := cluster; r_Average_Return := average_return |}.

Definition holdings : list string := ["A"; "B"]%string.

(** The five best of the six candidates, ["C"] and ["E"] having equal
    average returns: in table order. *)
Definition ranked : list recommendation :=
  [ rec "G" 1 4; rec "D" 2 2; rec "H" 2 0.75; rec "C" 1 0.5; rec "E" 1 0.5 ].

(** A holding in cluster 0 and twenty stocks of cluster 1 that all have
    the average return 0.5. *)
Definition plateau_tickers : list string :=
  [ "S00"; "S01"; "S02"; "S03"; "S04"; "S05"; "S06"; "S07"; "S08"; "S09";
    "S10"; "S11"; "S12"; "S13"; "S14"; "S15"; "S16"; "S17"; "S18"; "S19" ]%string.

Definition plateau : list clustered_row :=
  row "A" 0 1 :: map (fun t => row t 1 0.5) plateau_tickers.

(** What [analyze_user_portfolio] returns on it for five rows. *)
Definition plateau_ranked : list recommendation :=
  [ rec "S00" 1 0.5; rec "S01" 1 0.5; rec "S18" 1 0.5; rec "S17" 1 0.5;
    rec "S16" 1 0.5 ].

(** A row of the consolidated CSV with the given P/E ratio. *)
Definition stock (ticker : string) (pe_ratio : float) : stock_record :=
  {| Ticker := ticker; Sector := Some "Energy"%string; Market_Cap := 1000;
     PE_Ratio := pe_ratio; Average_Return := 0.5; Volatility := 0.25 |}.

(** A company worth [0x1p1023], about 9e307: the largest power of two a
    binary64 number holds. *)
Definition giant (ticker : string) : stock_record :=
  {| Ticker := ticker; Sector := Some "Energy"%string; Market_Cap := 0x1p1023;
     PE_Ratio := 12; Average_Return := 0.5; Volatility := 0.25 |}.

(** Feature matrices of four and of three rows. *)
Definition four_rows : matrix := [[0]; [1]; [2]; [3]]%float.
Definition three_rows : matrix := [[0]; [1]; [2]]%float.

Import Forecast.

(** Forty days of prices, all 100.  The trend model, when it fits, is off
    by 2 on the first test day (day 39), the ARMA model by 3 and by 1 on
    the two test days: backtest errors 2.0 and 5.0. *)
Definition prices : list (Z * float) :=
  map (fun d => (d, 100%float)) (range 1 41).

Definition trend (periods : Z) : list forecast_row :=
  map (fun d => let v := (if (d =? 39)%Z then 102 else 100)%float in
                {| fc_ds := d; yhat := v;
                   yhat_lower := (v - 1)%float; yhat_upper := (v + 1)%float |})
      (range 1 (39 + periods)).

(** A market: whether Prophet fits, whether there are prices for the ARMA
    model, and whether the ARMA model fits. *)
Definition market (prophet_fits arma_prices arma_fits : bool) : Libraries :=
  {| yf_download := fun _ q =>
       match q with
       | Period _ => Returned prices
       | Range _ _ => if arma_prices then Returned prices else Returned []
       end;
     prophet_model := unit;
     Prophet_fit := fun _ =>
       if prophet_fits then Returned tt
       else Raised (RuntimeError "Error during optimization");
     Prophet_predict := fun _ periods => Returned (trend periods);
     mean_squared_error := Sklearn.mean_squared_error;
     pacf := fun _ nlags => Returned (repeat 0%float (S nlags));
     acf := fun _ nlags => Returned (repeat 0%float (S nlags));
     arma_model := unit;
     ARIMA_fit := fun _ _ =>
       if arma_fits then Returned tt
       else Raised (ValueError "LU decomposition error.");
     ARIMA_forecast := fun _ steps =>
       Returned (firstn steps [103; 101; 100; 100; 100; 100; 100]%float);
     ARIMA_get_forecast := fun _ steps => Returned (repeat 100%float steps);
     round2 := fun x => x |}.

(** A stock listed five days ago: too short a history for either model. *)
Definition new_listing : Libraries :=
  {| yf_download := fun _ _ => Returned (firstn 5 prices);
     prophet_model := unit;
     Prophet_fit := fun _ => Returned tt;
     Prophet_predict := fun _ periods => Returned (trend periods);
     mean_squared_error := Sklearn.mean_squared_error;
     pacf := fun _ nlags => Returned (repeat 0%float (S nlags));
     acf := fun _ nlags => Returned (repeat 0%float (S nlags));
     arma_model := unit;
     ARIMA_fit := fun _ _ => Returned tt;
     ARIMA_forecast := fun _ steps => Returned (repeat 100%float steps);
     ARIMA_get_forecast := fun _ steps => Returned (repeat 100%float steps);
     round2 := fun x => x |}.

End Scenarios.

(** ** More scenarios *)

Module Bourse.

Import Forecast.

(** The trend model of [Scenarios.trend], off by [miss] on day 39. *)
Definition trend_off (miss : float) (periods : Z) : list forecast_row :=
  map (fun d => let v := (if (d =? 39)%Z then 100 + miss else 100)%float in
                {| fc_ds := d; yhat := v;
                   yhat_lower := (v - 1)%float; yhat_upper := (v + 1)%float |})
      (range 1 (39 + periods)).

(** Forty days of prices at 100, with a trend model that is off by [miss]
    on the first test day and, when [gap] is set, forecasts the days of the
    training set only; an ARMA model that backtests with error 5.0 and
    whose seven-day projection is [arma_projection]. *)
Definition bourse (miss : float) (gap : bool) (arma_projection : outcome (list float))
  : Libraries :=
  {| yf_download := fun _ _ => Returned Scenarios.prices;
     prophet_model := unit;
     Prophet_fit := fun _ => Returned tt;
     Prophet_predict := fun _ periods =>
       Returned (if gap then firstn 38 (trend_off miss periods)
                 else trend_off miss periods);
     mean_squared_error := Sklearn.mean_squared_error;
     pacf := fun _ nlags => Returned (repeat 0%float (S nlags));
     acf := fun _ nlags => Returned (repeat 0%float (S nlags));
     arma_model := unit;
     ARIMA_fit := fun _ _ => Returned tt;
     ARIMA_forecast := fun _ steps =>
       Returned (firstn steps [103; 101; 100; 100; 100; 100; 100]%float);
     ARIMA_get_forecast := fun _ _ => arma_projection;
     round2 := fun x => x |}.

Definition rising : list float := [101; 102; 103; 104; 105; 106; 107]%float.

End Bourse.

(** ** stock_risk.py: loading the tickers and fetching their data *)

Module Ingest.

(** What [pd.read_csv(csv_path)] gives [load_stock_tickers]: the file is
    missing, another exception, or a frame, its columns in order with
    their cells, a missing cell being [None].  The symbols are text. *)
Inductive read_csv_result : Type :=
| FileNotFoundError
| OtherException (e : exn)
| Frame (columns : list (string * list (option string))).

(** A line [fetch_and_save_stock_data] appends to the output file; [None]
    is the empty cell. *)
Record csv_row : Type := {
  c_Ticker : string;
  c_Sector : string;
  c_Market_Cap : option float;
  c_PE_Ratio : option float;
  c_Average_Return : float;
  c_Volatility : float
}.

Inductive event : Type :=
| Print (s : string)
| PrintLoaded (n : nat) (csv_path : string)
| PrintLoadError (e : exn)
| WriteFile (path : string) (text : string)
| PrintFetching (total_batches batch_size : Z)
| Append (path : string) (row : csv_row)
| PrintError (ticker : string) (e : exn)
| PrintBatchError (i : Z) (e : exn)
| Sleep (milliseconds : Z).

(** [df[name]] and [name in df.columns] *)
Definition column (name : string) (df : list (string * list (option string)))
  : option (list (option string)) :=
  option_map snd (find (fun c => String.eqb (fst c) name) df).

(** [Series.dropna()] *)
Fixpoint dropna (cells : list (option string)) : list string :=
  match cells with
  | [] => []
  | Some s :: t => s :: dropna t
  | None :: t => dropna t
  end.

(** [Series.unique()] on strings. *)
Fixpoint unique (l : list string) : list string :=
  match l with
  | [] => []
  | x :: t => x :: filter (fun y => negb (String.eqb y x)) (unique t)
  end.

(** [load_stock_tickers(csv_path)]: both handlers return the empty list. *)
Definition load_stock_tickers (read_csv : string -> read_csv_result) (csv_path : string)
  : list event * list string :=
  match read_csv csv_path with
  | Frame df =>
      match column "SYMBOL" df with
      | None =>
          ([PrintLoadError (ValueError "CSV file must contain a 'SYMBOL' column.")], [])
      | Some cells =>
          let tickers := unique (dropna cells) in
          ([PrintLoaded (List.length tickers) csv_path], tickers)
      end
  | FileNotFoundError =>
      ([Print ("Error: The file '" ++ csv_path ++ "' does not exist.")%string], [])
  | OtherException e => ([PrintLoadError e], [])
  end.

(** [try: body except Exception as e: handler] *)
Definition try_except {A} (body : io event A) (handler : exn -> io event A)
  : io event A :=
  match body with
  | (l, Returned a) => (l, Returned a)
  | (l, Raised e) => let (l', r) := handler e in (l ++ l', r)
  end.

(** [for x in xs: body] *)
Fixpoint for_each {A} (xs : list A) (body : A -> io event unit) : io event unit :=
  match xs with
  | [] => ret tt
  | x :: xs' => (body x ;;; for_each xs' body)%py
  end.

(** [range(start, stop, step)] for a step that is not zero. *)
Fixpoint range_up (fuel : nat) (i stop step : Z) : list Z :=
  match fuel with
  | 0 => []
  | S fuel' => if (i <? stop)%Z then i :: range_up fuel' (i + step) stop step else []
  end.

Fixpoint range_down (fuel : nat) (i stop step : Z) : list Z :=
  match fuel with
  | 0 => []
  | S fuel' => if (stop <? i)%Z then i :: range_down fuel' (i + step) stop step else []
  end.

Definition range_step (start stop step : Z) : list Z :=
  if (0 <? step)%Z then range_up (Z.to_nat (stop - start)) start stop step
  else range_down (Z.to_nat (start - stop)) start stop step.

(** The keys of [stock.info] the script reads; [None] is a key the
    dictionary does not have (for the two numbers, also one whose value is
    [None]). *)
Record ticker_info : Type := {
  sector : option string;
  marketCap : option float;
  trailingPE : option float
}.

(** How a run of [fetch_and_save_stock_data] ends. *)
Inductive ending : Type :=
| Completed
| ZeroDivisionError
| Propagated (e : exn).

Section Fetch.

(** [os.path.exists] *)
Variable path_exists : string -> bool.
(** [yf.Ticker(ticker).history(start=..., end=...)['Close']] *)
Variable history : string -> string -> string -> outcome (list float).
(** [hist['Close'].pct_change().mean()] and [.std()] *)
Variable mean_daily_return : list float -> float.
Variable std_daily_return : list float -> float.
(** [yf.Ticker(ticker).info] *)
Variable info : string -> outcome ticker_info.

(** The body of the inner [try]; [continue] ends it. *)
Definition fetch_ticker (ticker start_date end_date output_csv : string) : io event unit :=
 (emit (Print ("Processing " ++ ticker ++ "...")%string) ;;;
  hist <- lift (history ticker start_date end_date) ;;
  if empty hist then
    emit (Print ("No historical data found for " ++ ticker ++ ". Skipping.")%string)
  else
    let avg_return := mean_daily_return hist in
    let volatility := std_daily_return hist in
    info <- lift (info ticker) ;;
    let sector := match sector info with Some s => s | None => "Unknown"%string end in
    let market_cap := match marketCap info with Some x => x | None => nan end in
    let pe_ratio := match trailingPE info with Some x => x | None => nan end in
    let row := {| c_Ticker := ticker;
                  c_Sector := sector;
                  c_Market_Cap := if negb (isna market_cap) then Some market_cap else None;
                  c_PE_Ratio := if negb (isna pe_ratio) then Some pe_ratio else None;
                  c_Average_Return := avg_return;
                  c_Volatility := volatility |} in
    emit (Append output_csv row) ;;;
    emit (Print ("Data fetched and saved for " ++ ticker ++ "." ++ LF)%string) ;;;
    emit (Sleep 100))%py.

(** One pass of the inner loop: the [try] with its handler. *)
Definition process_ticker (ticker start_date end_date output_csv : string)
  : io event unit :=
  try_except (fetch_ticker ticker start_date end_date output_csv)
             (fun e => emit (PrintError ticker e)).

(** One pass of the outer loop. *)
Definition process_batch (tickers : list string) (batch_size : Z)
    (start_date end_date output_csv : string) (i : Z) : io event unit :=
  let batch_tickers := Forecast.iloc tickers (Some i) (Some (i + batch_size)%Z) in
  try_except
    (for_each batch_tickers
       (fun ticker => process_ticker ticker start_date end_date output_csv) ;;;
     emit (Sleep 1000))%py
    (fun e => emit (PrintBatchError i e)).

(** [fetch_and_save_stock_data(tickers, batch_size, start_date, end_date,
    output_csv)].  The division of two integers raises when the batch size
    is zero; the number of batches is its quotient rounded up. *)
Definition fetch_and_save_stock_data (tickers : list string) (batch_size : Z)
    (start_date end_date output_csv : string) : list event * ending :=
  let opening :=
    if negb (path_exists output_csv) then
      let headers := ["Ticker"; "Sector"; "Market Cap"; "P/E Ratio"; "Average Return";
                      "Volatility"]%string in
      [ WriteFile output_csv (String.concat "," headers ++ LF)%string;
        Print ("Created '" ++ output_csv ++ "' with headers.")%string ]
    else [ Print ("Appending to existing '" ++ output_csv ++ "'.")%string ] in
  let total_tickers := Z.of_nat (List.length tickers) in
  if (batch_size =? 0)%Z then (opening, ZeroDivisionError)
  else
    let total_batches := (- ((- total_tickers) / batch_size))%Z in
    let loop :=
      for_each (range_step 0 total_tickers batch_size)
               (process_batch tickers batch_size start_date end_date output_csv) in
    match loop with
    | (l, Returned _) =>
        (opening ++ PrintFetching total_batches batch_size :: l ++
           [ Print (LF ++ "Data fetching completed. Consolidated data saved to '"
                       ++ output_csv ++ "'.")%string ],
         Completed)
    | (l, Raised e) =>
        (opening ++ PrintFetching total_batches batch_size :: l, Propagated e)
    end.

End Fetch.

Definition default_batch_size : Z := 200.

(** The lines a run appended to the output file. *)
Fixpoint appended (l : list event) : list csv_row :=
  match l with
  | [] => []
  | Append _ row :: t => row :: appended t
  | _ :: t => appended t
  end.

(** A feed for three tickers: [B] has no history and the information of
    [C] cannot be had. *)
Definition feed_history (ticker start_date end_date : string) : outcome (list float) :=
  if String.eqb ticker "B" then Returned [] else Returned [100; 101]%float.

Definition feed_info (ticker : string) : outcome ticker_info :=
  if String.eqb ticker "C" then Raised (KeyError "info")
  else Returned {| sector := Some "Energy"%string; marketCap := Some 5%float;
                   trailingPE := None |}.

Definition run_feed (tickers : list string) (batch_size : Z) : list event * ending :=
  fetch_and_save_stock_data (fun _ => false) feed_history (fun _ => 0%float)
    (fun _ => 1%float) feed_info tickers batch_size "2023-05-01" "2024-11-09" "out.csv".

End Ingest.

(** ** The order [pd.get_dummies] sorts the sectors by *)

Module Strings.

Definition string_lt (a b : string) : Prop := String.ltb a b = true.

End Strings.

(** * Properties *)

(** ** Outcomes and list operations *)

Module PyFacts.

Lemma bind_Returned {A B} (m : outcome A) (k : A -> outcome B) (b : B) :
  bind m k = Returned b -> exists a, m = Returned a /\ k a = Returned b.
Proof.
  destruct m as [a|e]; simpl; intros H; [exists a; auto | discriminate].
Qed.

Lemma traverse_Forall2 {A B} (f : A -> outcome B) (xs : list A) (ys : list B) :
  traverse f xs = Returned ys -> Forall2 (fun x v => f x = Returned v) xs ys.
Proof.
  revert ys; induction xs as [|x xs IH]; simpl; intros ys H.
  - injection H as <-. constructor.
  - apply bind_Returned in H as (v & Hv & H).
    apply bind_Returned in H as (vs & Hvs & H).
    injection H as <-. constructor; auto.
Qed.

Lemma traverse_total {A B} (f : A -> outcome B) (g : A -> B) (xs : list A) :
  Forall (fun x => f x = Returned (g x)) xs -> traverse f xs = Returned (map g xs).
Proof.
  induction 1 as [|x xs Hx _ IH]; simpl; [reflexivity|].
  rewrite Hx; simpl. rewrite IH; reflexivity.
Qed.

Lemma take_In {A} (a : list A) (indexer : list nat) (l : list A) :
  take a indexer = Returned l -> forall x, In x l -> In x a.
Proof.
  unfold take; intros H. apply traverse_Forall2 in H.
  induction H as [|i x idx l Hi _ IH]; simpl; intros v Hv; [contradiction|].
  destruct Hv as [<-|Hv]; [|auto].
  destruct (nth_error a i) eqn:E; [|discriminate].
  injection Hi as <-. eapply nth_error_In; eauto.
Qed.

Lemma take_map {A} (d : A) (a : list A) (indexer : list nat) :
  Forall (fun i => i < List.length a) indexer ->
  take a indexer = Returned (map (fun i => nth i a d) indexer).
Proof.
  intros H. unfold take. apply traverse_total.
  eapply Forall_impl; [|exact H]. simpl; intros i Hi.
  destruct (nth_error a i) eqn:E.
  - f_equal. symmetry. apply nth_error_nth with (d := d) in E. exact E.
  - apply nth_error_None in E. lia.
Qed.

Lemma firstn_In {A} (n : nat) (l : list A) (x : A) : In x (firstn n l) -> In x l.
Proof.
  intros H. rewrite <- (firstn_skipn n l). apply in_or_app. left. exact H.
Qed.

Lemma head_In {A} (n : Z) (df : list A) (x : A) : In x (head n df) -> In x df.
Proof.
  unfold head. destruct (0 <=? n)%Z; apply firstn_In.
Qed.

Lemma length_head {A} (n : Z) (df : list A) :
  (0 <= n)%Z -> (Z.of_nat (List.length (head n df)) <= n)%Z.
Proof.
  intros Hn. unfold head. destruct (Z.leb_spec 0 n); [|lia].
  rewrite length_firstn. lia.
Qed.

Lemma In_unique (x : Z) (l : list Z) : In x (unique l) <-> In x l.
Proof.
  induction l as [|a l IH]; simpl; [tauto|].
  rewrite filter_In, IH, negb_true_iff, Z.eqb_neq.
  destruct (Z.eq_dec a x); intuition congruence.
Qed.

Lemma isin_str_In (x : string) (values : list string) :
  isin_str x values = true <-> In x values.
Proof.
  unfold isin_str. rewrite existsb_exists. split.
  - intros (v & Hv & E). apply String.eqb_eq in E. congruence.
  - intros H. exists x. split; [exact H | apply String.eqb_refl].
Qed.

Lemma isin_int_In (x : Z) (values : list Z) :
  isin_int x values = true <-> In x values.
Proof.
  unfold isin_int. rewrite existsb_exists. split.
  - intros (v & Hv & E). apply Z.eqb_eq in E. congruence.
  - intros H. exists x. split; [exact H | apply Z.eqb_refl].
Qed.

End PyFacts.

(** ** Comparisons of binary64 numbers *)

Module FloatFacts.

Lemma SFcompare_antisym x y c :
  SFcompare x y = Some c -> SFcompare y x = Some (CompOpp c).
Proof.
  destruct x as [s1|s1| |s1 m1 e1], y as [s2|s2| |s2 m2 e2]; simpl; try discriminate;
    try (destruct s1); try (destruct s2); simpl; intros H;
    try (injection H as <-); try reflexivity.
  all: rewrite (Z.compare_antisym e1 e2); destruct (e1 ?= e2)%Z; simpl; try reflexivity.
  all: change (Pcompare ?a ?b Eq) with (Pos.compare a b);
       rewrite (Pos.compare_antisym m1 m2); try reflexivity.
  all: destruct (m1 ?= m2)%positive; reflexivity.
Qed.

Lemma SFcompare_refl x : SFcompare x x = if SFeqb x x then Some Eq else None.
Proof.
  unfold SFeqb.
  destruct x as [s|s| |s m e]; simpl; try reflexivity; destruct s; try reflexivity;
    rewrite Z.compare_refl; change (Pcompare ?a ?b Eq) with (Pos.compare a b);
    rewrite Pos.compare_refl; reflexivity.
Qed.

Lemma SFeqb_refl_false x : SFeqb x x = false -> x = S754_nan.
Proof.
  unfold SFeqb.
  destruct x as [s|s| |s m e]; simpl; try reflexivity; destruct s; try discriminate;
    rewrite Z.compare_refl; change (Pcompare ?a ?b Eq) with (Pos.compare a b);
    rewrite Pos.compare_refl; discriminate.
Qed.

Lemma SFcompare_nan_l x y : SFeqb x x = false -> SFcompare x y = None.
Proof.
  intros H. apply SFeqb_refl_false in H. subst x. reflexivity.
Qed.

Lemma SFleb_trans x y z : SFleb x y = true -> SFleb y z = true -> SFleb x z = true.
Proof.
  unfold SFleb.
  destruct x as [s1|s1| |s1 m1 e1], y as [s2|s2| |s2 m2 e2], z as [s3|s3| |s3 m3 e3];
    simpl; try discriminate;
    try (destruct s1); try (destruct s2); try (destruct s3); simpl;
    try discriminate; try reflexivity.
  all: change (Pcompare ?a ?b Eq) with (Pos.compare a b).
  all: destruct (Z.compare_spec e1 e2), (Z.compare_spec e2 e3), (Z.compare_spec e1 e3);
       try lia; simpl; try discriminate; try reflexivity.
  all: destruct (Pos.compare_spec m1 m2), (Pos.compare_spec m2 m3), (Pos.compare_spec m1 m3);
       try lia; simpl; try discriminate; try reflexivity.
Qed.

(** NaN compares false with everything. *)
Lemma ltb_nan_r x y : isna y = true -> (x <? y)%float = false.
Proof.
  unfold isna, is_nan. rewrite negb_true_iff, FloatAxioms.eqb_spec, FloatAxioms.ltb_spec.
  intros H. unfold SFltb.
  destruct (SFcompare (Prim2SF x) (Prim2SF y)) as [c|] eqn:E; [|reflexivity].
  apply SFcompare_antisym in E. rewrite (SFcompare_nan_l _ _ H) in E. discriminate.
Qed.

(** [y <= x] excludes [x < y]. *)
Lemma leb_not_ltb x y : (y <=? x)%float = true -> (x <? y)%float = false.
Proof.
  rewrite FloatAxioms.leb_spec, FloatAxioms.ltb_spec. unfold SFleb, SFltb.
  destruct (SFcompare (Prim2SF y) (Prim2SF x)) as [c|] eqn:E; [|discriminate].
  apply SFcompare_antisym in E. rewrite E. destruct c; simpl; congruence.
Qed.

Lemma eqb_not_ltb x y : (x =? y)%float = true -> (x <? y)%float = false.
Proof.
  rewrite FloatAxioms.eqb_spec, FloatAxioms.ltb_spec. unfold SFeqb, SFltb.
  destruct (SFcompare (Prim2SF x) (Prim2SF y)) as [[]|]; congruence.
Qed.

Lemma eqb_sym x y : (x =? y)%float = (y =? x)%float.
Proof.
  rewrite !FloatAxioms.eqb_spec. unfold SFeqb.
  destruct (SFcompare (Prim2SF x) (Prim2SF y)) as [c|] eqn:E.
  - rewrite (SFcompare_antisym _ _ E). destruct c; reflexivity.
  - destruct (SFcompare (Prim2SF y) (Prim2SF x)) as [c|] eqn:E'; [|reflexivity].
    rewrite (SFcompare_antisym _ _ E') in E. discriminate E.
Qed.

Lemma eqb_nan_r x y : isna y = true -> (x =? y)%float = false.
Proof.
  unfold isna, is_nan. rewrite negb_true_iff, !FloatAxioms.eqb_spec.
  intros H. unfold SFeqb at 1.
  destruct (SFcompare (Prim2SF x) (Prim2SF y)) as [c|] eqn:E; [|reflexivity].
  apply SFcompare_antisym in E. rewrite (SFcompare_nan_l _ _ H) in E. discriminate.
Qed.

Lemma eqb_leb x y : (x =? y)%float = true -> (x <=? y)%float = true.
Proof.
  rewrite FloatAxioms.eqb_spec, FloatAxioms.leb_spec. unfold SFeqb, SFleb.
  destruct (SFcompare (Prim2SF x) (Prim2SF y)) as [[]|]; congruence.
Qed.

(** Nothing is above infinity. *)
Lemma infinity_not_ltb x : (infinity <? x)%float = false.
Proof.
  rewrite FloatAxioms.ltb_spec. unfold SFltb.
  replace (Prim2SF infinity) with (S754_infinity false) by reflexivity.
  destruct (Prim2SF x) as [s|s| |s m e]; try destruct s; reflexivity.
Qed.

(** Numbers that are not NaN are totally ordered. *)
Lemma leb_total x y :
  isna x = false -> isna y = false -> (x <=? y)%float = false -> (y <=? x)%float = true.
Proof.
  unfold isna, is_nan. rewrite !negb_false_iff, !FloatAxioms.eqb_spec, !FloatAxioms.leb_spec.
  unfold SFleb. intros Hx Hy.
  destruct (SFcompare (Prim2SF x) (Prim2SF y)) as [c|] eqn:E.
  - apply SFcompare_antisym in E. rewrite E. destruct c; simpl; congruence.
  - exfalso. destruct (Prim2SF x) as [s1|s1| |s1 m1 e1], (Prim2SF y) as [s2|s2| |s2 m2 e2];
      simpl in *; discriminate.
Qed.

Lemma leb_trans x y z :
  (x <=? y)%float = true -> (y <=? z)%float = true -> (x <=? z)%float = true.
Proof.
  rewrite !FloatAxioms.leb_spec. apply SFleb_trans.
Qed.

End FloatFacts.

(** ** Sorting *)

Module SortFacts.

Import Numpy PyFacts FloatFacts.

Lemma filter_map {A B} (f : B -> bool) (g : A -> B) (l : list A) :
  filter f (map g l) = map g (filter (fun x => f (g x)) l).
Proof.
  induction l as [|x l IH]; simpl; [reflexivity|].
  destruct (f (g x)); simpl; rewrite IH; reflexivity.
Qed.

Lemma map_nth_seq {A} (d : A) (l : list A) :
  map (fun i => nth i l d) (seq 0 (List.length l)) = l.
Proof.
  induction l as [|x l IH]; simpl; [reflexivity|].
  rewrite <- seq_shift, map_map. simpl. rewrite IH. reflexivity.
Qed.

(** Filtering the positions by the value they hold selects the values. *)
Lemma filter_seq_values {A} (p : A -> bool) (d : A) (l : list A) :
  map (fun i => nth i l d) (filter (fun i => p (nth i l d)) (seq 0 (List.length l)))
  = filter p l.
Proof.
  induction l as [|x l IH]; simpl; [reflexivity|].
  rewrite <- seq_shift, filter_map. simpl.
  destruct (p x); simpl; rewrite map_map; simpl; rewrite IH; reflexivity.
Qed.

Lemma Permutation_filter_split {A} (f : A -> bool) (l : list A) :
  Permutation (filter f l ++ filter (fun x => negb (f x)) l) l.
Proof.
  induction l as [|x l IH]; simpl; [constructor|].
  destruct (f x); simpl.
  - constructor. exact IH.
  - symmetry. etransitivity; [|apply Permutation_middle].
    constructor. symmetry. exact IH.
Qed.

Section StronglySorted.

Context {A : Type}.

Lemma SS_impl (R R' : A -> A -> Prop) (l : list A) :
  (forall x y, In x l -> In y l -> R x y -> R' x y) ->
  StronglySorted R l -> StronglySorted R' l.
Proof.
  intros H S. induction S as [|x l S IH F]; constructor.
  - apply IH. intros; apply H; simpl; auto.
  - rewrite Forall_forall in *. intros y Hy. apply H; simpl; auto.
Qed.

Lemma SS_app (R : A -> A -> Prop) (l1 l2 : list A) :
  StronglySorted R l1 -> StronglySorted R l2 ->
  (forall x y, In x l1 -> In y l2 -> R x y) ->
  StronglySorted R (l1 ++ l2).
Proof.
  intros S1 S2 H. induction S1 as [|x l S IH F]; simpl; [exact S2|].
  constructor.
  - apply IH. intros; apply H; simpl; auto.
  - apply Forall_app. split; [exact F|].
    apply Forall_forall. intros y Hy. apply H; simpl; auto.
Qed.

Lemma SS_rev (R : A -> A -> Prop) (l : list A) :
  StronglySorted R l -> StronglySorted (fun x y => R y x) (rev l).
Proof.
  induction 1 as [|x l S IH F]; simpl; [constructor|].
  apply SS_app; [exact IH | repeat constructor |].
  intros y z Hy [<-|[]]. rewrite Forall_forall in F. apply F, in_rev, Hy.
Qed.

Lemma SS_firstn (R : A -> A -> Prop) (n : nat) (l : list A) :
  StronglySorted R l -> StronglySorted R (firstn n l).
Proof.
  intros S. revert n. induction S as [|x l S IH F]; intros [|n]; simpl; try constructor.
  - apply IH.
  - rewrite Forall_forall in *. intros y Hy. apply F. eapply firstn_In, Hy.
Qed.

Lemma SS_map {B} (f : B -> A) (R : A -> A -> Prop) (l : list B) :
  StronglySorted (fun x y => R (f x) (f y)) l <-> StronglySorted R (map f l).
Proof.
  induction l as [|x l IH]; simpl; split; intros S; try constructor;
    apply StronglySorted_inv in S as [S F]; try (apply IH; exact S).
  - rewrite Forall_map. exact F.
  - rewrite Forall_map in F. exact F.
Qed.

Lemma SS_all (R : A -> A -> Prop) (l : list A) :
  (forall x y, In x l -> In y l -> R x y) -> StronglySorted R l.
Proof.
  induction l as [|x l IH]; intros H; constructor.
  - apply IH. intros; apply H; simpl; auto.
  - apply Forall_forall. intros; apply H; simpl; auto.
Qed.

End StronglySorted.

(** *** The insertion sort sorts *)

Lemma insert_index_perm a i l : Permutation (insert_index a i l) (i :: l).
Proof.
  induction l as [|j l IH]; simpl; [reflexivity|].
  destruct (key a i <=? key a j)%float; [reflexivity|].
  etransitivity; [constructor; exact IH | constructor].
Qed.

Lemma insert_index_sorted a i l :
  isna (key a i) = false -> Forall (fun j => isna (key a j) = false) l ->
  StronglySorted (le_at a) l -> StronglySorted (le_at a) (insert_index a i l).
Proof.
  intros Hi Hl S. induction S as [|j l S IH F]; simpl.
  - repeat constructor.
  - apply Forall_cons_iff in Hl as [Hj Hl].
    destruct (key a i <=? key a j)%float eqn:E.
    + constructor; [constructor; assumption|].
      constructor; [exact E|].
      eapply Forall_impl; [|exact F]. intros k Hk. unfold le_at in *.
      eapply leb_trans; eauto.
    + constructor; [apply IH; exact Hl|].
      eapply Permutation_Forall; [symmetry; apply insert_index_perm|].
      constructor; [|exact F]. apply leb_total; assumption.
Qed.

Lemma keys_not_nan a :
  Forall (fun x => isna x = false) a ->
  Forall (fun i => isna (key a i) = false) (seq 0 (List.length a)).
Proof.
  intros H. apply Forall_forall. intros i Hi. apply in_seq in Hi.
  rewrite Forall_forall in H. apply H. apply nth_In. lia.
Qed.

Lemma argsort_stable_sorts : sorts argsort_stable.
Proof.
  intros a Ha. apply keys_not_nan in Ha. unfold argsort_stable.
  induction Ha as [|i l Hi Hl [IHp IHs]]; simpl.
  - split; constructor.
  - split.
    + etransitivity; [apply insert_index_perm | constructor; exact IHp].
    + apply insert_index_sorted; auto.
      eapply Permutation_Forall; [symmetry; exact IHp | exact Hl].
Qed.

Lemma insert_index_stable a i l :
  Forall (fun j => i < j) l ->
  StronglySorted (fun i j => (key a i =? key a j)%float = true -> i < j) l ->
  StronglySorted (fun i j => (key a i =? key a j)%float = true -> i < j)
                 (insert_index a i l).
Proof.
  intros Hl S. induction S as [|j l S IH F]; simpl.
  - repeat constructor.
  - apply Forall_cons_iff in Hl as [Hj Hl].
    destruct (key a i <=? key a j)%float eqn:E.
    + constructor; [constructor; assumption|].
      constructor; [intros _; exact Hj|].
      eapply Forall_impl; [|exact Hl]. simpl. auto.
    + constructor; [apply IH; exact Hl|].
      eapply Permutation_Forall; [symmetry; apply insert_index_perm|].
      constructor; [|exact F].
      intros T. rewrite eqb_sym in T. apply eqb_leb in T. congruence.
Qed.

Lemma argsort_stable_stable : stable argsort_stable.
Proof.
  intros a _. unfold argsort_stable. generalize 0 as start.
  induction (List.length a) as [|n IH]; intros start; simpl; [constructor|].
  apply insert_index_stable; [|apply IH].
  assert (Permutation (fold_right (insert_index a) [] (seq (S start) n)) (seq (S start) n))
    as P.
  { generalize (S start) as s. clear. induction n as [|n IH]; intros s; simpl.
    - constructor.
    - etransitivity; [apply insert_index_perm | constructor; apply IH]. }
  eapply Permutation_Forall; [symmetry; exact P|].
  apply Forall_forall. intros j Hj. apply in_seq in Hj. lia.
Qed.

(** *** The descending indexer of [sort_values] *)

Lemma nth_mask (items : list float) (i : nat) :
  i < List.length items -> nth i (map isna items) false = isna (key items i).
Proof.
  intros Hi. unfold key.
  rewrite (nth_indep _ false (isna nan)) by (rewrite length_map; exact Hi).
  apply map_nth.
Qed.

Lemma non_nan_positions (items : list float) :
  map (key items)
      (filter (fun i => negb (nth i (map isna items) false)) (seq 0 (List.length items)))
  = filter (fun x => negb (isna x)) items.
Proof.
  rewrite <- (filter_seq_values (fun x => negb (isna x)) nan items).
  unfold key. f_equal. apply filter_ext_in. intros i Hi. apply in_seq in Hi.
  rewrite nth_mask by lia. reflexivity.
Qed.

Lemma StronglySorted_map_key (a : list float) (f : nat -> float) (l : list nat) :
  (forall j, In j l -> f j = key a j) ->
  StronglySorted (fun i j => (key a i <=? key a j)%float = true) l ->
  StronglySorted (fun x y => (x <=? y)%float = true) (map f l).
Proof.
  intros E S. apply SS_map. eapply SS_impl; [|exact S].
  simpl. intros i j Hi Hj. rewrite (E i Hi), (E j Hj). auto.
Qed.

Lemma nargsort_descending_spec argsort items :
  sorts argsort ->
  exists indexer,
    nargsort_descending argsort items = Returned indexer /\
    Permutation indexer (seq 0 (List.length items)) /\
    never_ascending (map (key items) indexer).
Proof.
  intros H. unfold nargsort_descending.
  set (n := List.length items).
  set (non_nan_idx := filter (fun i => negb (nth i (map isna items) false)) (seq 0 n)).
  set (nan_idx := filter (fun i => nth i (map isna items) false) (seq 0 n)).
  set (non_nans := filter (fun x => negb (isna x)) items).
  assert (map (key items) non_nan_idx = non_nans) as A by apply non_nan_positions.
  assert (List.length non_nan_idx = List.length non_nans) as L
    by (rewrite <- A, length_map; reflexivity).
  assert (Forall (fun x => isna x = false) (rev non_nans)) as N.
  { apply Forall_forall. intros x Hx. apply in_rev, filter_In in Hx as [_ Hx].
    apply negb_true_iff. exact Hx. }
  destruct (H _ N) as [P S]. rewrite length_rev in P.
  assert (Forall (fun j => j < List.length (rev non_nan_idx)) (argsort (rev non_nans))) as B.
  { apply Forall_forall. intros j Hj. rewrite length_rev, L.
    apply (Permutation_in _ P), in_seq in Hj. lia. }
  rewrite (take_map 0 _ B). simpl.
  eexists. split; [reflexivity|]. split.
  - etransitivity; [|apply (Permutation_filter_split
                               (fun i => negb (nth i (map isna items) false)) (seq 0 n))].
    apply Permutation_app.
    + etransitivity; [symmetry; apply Permutation_rev|].
      etransitivity; [apply Permutation_map, P|].
      rewrite <- L, <- (length_rev non_nan_idx), map_nth_seq.
      symmetry. apply Permutation_rev.
    + unfold nan_idx. erewrite filter_ext; [reflexivity|].
      intros i. simpl. rewrite negb_involutive. reflexivity.
  - unfold never_ascending. rewrite map_app, map_rev, map_map.
    apply SS_app.
    + apply (SS_impl (R := fun x y => (y <=? x)%float = true)).
      { intros x y _ _. apply leb_not_ltb. }
      apply SS_rev with (R := fun x y => (x <=? y)%float = true).
      apply StronglySorted_map_key with (a := rev non_nans); [|exact S].
      intros j Hj. apply (Permutation_in _ P), in_seq in Hj.
      rewrite <- A, <- map_rev. unfold key at 2.
      rewrite (nth_indep _ nan (key items 0)) by (rewrite length_map, length_rev; lia).
      rewrite map_nth. reflexivity.
    + apply SS_all. intros x y _ Hy. apply ltb_nan_r.
      apply in_map_iff in Hy as (i & <- & Hi). apply filter_In in Hi as [Hi Hm].
      apply in_seq in Hi. rewrite <- nth_mask by lia. exact Hm.
    + intros x y _ Hy. apply ltb_nan_r.
      apply in_map_iff in Hy as (i & <- & Hi). apply filter_In in Hi as [Hi Hm].
      apply in_seq in Hi. rewrite <- nth_mask by lia. exact Hm.
Qed.

(** *** Equal keys under a stable sort *)

Lemma SS_nth_error {A} (R : A -> A -> Prop) (l : list A) :
  StronglySorted R l ->
  forall i j a b, i < j -> nth_error l i = Some a -> nth_error l j = Some b -> R a b.
Proof.
  induction 1 as [|x l S IH F]; intros i j a b Hij Hi Hj.
  - destruct i; discriminate Hi.
  - destruct j as [|j]; [lia|]. simpl in Hj. destruct i as [|i]; simpl in Hi.
    + injection Hi as <-. rewrite Forall_forall in F. eapply F, nth_error_In, Hj.
    + apply (IH i j); auto. lia.
Qed.

Lemma filter_seq_increasing (f : nat -> bool) (n start : nat) :
  StronglySorted lt (filter f (seq start n)).
Proof.
  revert start. induction n as [|n IH]; intros start; simpl; [constructor|].
  destruct (f start); [|apply IH].
  constructor; [apply IH|].
  apply Forall_forall. intros i Hi. apply filter_In in Hi as [Hi _].
  apply in_seq in Hi. lia.
Qed.

Lemma SS_lt_nth (l : list nat) (d : nat) :
  StronglySorted lt l ->
  forall i j, i < j < List.length l -> nth i l d < nth j l d.
Proof.
  intros S i j H.
  apply (SS_nth_error S (i := i) (j := j)); try lia; apply nth_error_nth'; lia.
Qed.

(** Two rows that a filter keeps stand in the table in the order they have
    among the rows kept. *)
Lemma nth_error_filter_order {A} (f : A -> bool) (l : list A) :
  forall a b x y, a < b ->
    nth_error (filter f l) a = Some x -> nth_error (filter f l) b = Some y ->
    exists p q, p < q /\ nth_error l p = Some x /\ nth_error l q = Some y.
Proof.
  induction l as [|z l IH]; simpl; intros a b x y Hab Ha Hb.
  - destruct a; discriminate Ha.
  - destruct (f z).
    + destruct b as [|b]; [lia|]. simpl in Hb. destruct a as [|a]; simpl in Ha.
      * injection Ha as <-.
        destruct (In_nth_error _ _ (proj1 (proj1 (filter_In f y l)
                    (nth_error_In _ _ Hb)))) as [q Hq].
        exists 0, (S q). repeat split; [lia | exact Hq].
      * destruct (IH a b x y) as (p & q & Hpq & Hp & Hq); auto; [lia|].
        exists (S p), (S q). repeat split; [lia | exact Hp | exact Hq].
    + destruct (IH a b x y) as (p & q & Hpq & Hp & Hq); auto.
      exists (S p), (S q). repeat split; [lia | exact Hp | exact Hq].
Qed.

Lemma nargsort_descending_stable argsort items indexer :
  sorts argsort -> stable argsort ->
  nargsort_descending argsort items = Returned indexer ->
  ties_ascending items indexer.
Proof.
  intros H St. unfold nargsort_descending.
  set (n := List.length items).
  set (non_nan_idx := filter (fun i => negb (nth i (map isna items) false)) (seq 0 n)).
  set (nan_idx := filter (fun i => nth i (map isna items) false) (seq 0 n)).
  set (non_nans := filter (fun x => negb (isna x)) items).
  assert (map (key items) non_nan_idx = non_nans) as A by apply non_nan_positions.
  assert (List.length non_nan_idx = List.length non_nans) as L
    by (rewrite <- A, length_map; reflexivity).
  assert (Forall (fun x => isna x = false) (rev non_nans)) as N.
  { apply Forall_forall. intros x Hx. apply in_rev, filter_In in Hx as [_ Hx].
    apply negb_true_iff. exact Hx. }
  destruct (H _ N) as [P _]. rewrite length_rev in P. specialize (St _ N).
  assert (Forall (fun j => j < List.length (rev non_nan_idx)) (argsort (rev non_nans))) as B.
  { apply Forall_forall. intros j Hj. rewrite length_rev, L.
    apply (Permutation_in _ P), in_seq in Hj. lia. }
  rewrite (take_map 0 _ B). simpl. intros E. injection E as <-.
  assert (forall i, In i nan_idx -> isna (key items i) = true) as Hnan.
  { intros i Hi. apply filter_In in Hi as [Hi Hm]. apply in_seq in Hi.
    rewrite <- nth_mask by (fold n; lia). exact Hm. }
  unfold ties_ascending. apply SS_app.
  - apply SS_rev with (R := fun y x => (key items x =? key items y)%float = true -> x < y).
    apply SS_map. eapply SS_impl; [|exact St]. simpl.
    intros j1 j2 H1 H2 T E.
    apply (Permutation_in _ P), in_seq in H1. apply (Permutation_in _ P), in_seq in H2.
    assert (forall j, j < List.length non_nans ->
              key items (nth j (rev non_nan_idx) 0) = key (rev non_nans) j) as K.
    { intros j Hj. rewrite <- A, <- map_rev. unfold key at 2.
      rewrite (nth_indep _ nan (key items 0)) by (rewrite length_map, length_rev; lia).
      rewrite map_nth. reflexivity. }
    rewrite !K in E by lia. rewrite eqb_sym in E. specialize (T E).
    rewrite !rev_nth by lia.
    apply SS_lt_nth; [apply filter_seq_increasing | lia].
  - apply SS_all. intros a b _ Hb E. rewrite (eqb_nan_r _ _ (Hnan b Hb)) in E. discriminate E.
  - intros a b _ Hb E. rewrite (eqb_nan_r _ _ (Hnan b Hb)) in E. discriminate E.
Qed.

End SortFacts.

(** ** The recommendation engine *)

Module StockRiskProps.

Import StockRisk PyFacts.

Lemma recommended_stocks_spec clustered_df user_portfolio r :
  In r (recommended_stocks clustered_df user_portfolio) <->
  In r clustered_df /\
  forall h, In h clustered_df -> In (f_Ticker (features h)) user_portfolio ->
            Cluster r <> Cluster h.
Proof.
  unfold recommended_stocks, user_clusters, user_stocks. rewrite filter_In, negb_true_iff.
  split; intros [Hr H]; split; auto.
  - intros h Hh Ht E.
    assert (isin_int (Cluster r)
              (unique (map Cluster
                 (filter (fun r0 => isin_str (f_Ticker (features r0)) user_portfolio)
                    clustered_df))) = true) as C; [|congruence].
    apply isin_int_In, In_unique. rewrite E. apply in_map.
    apply filter_In. split; [exact Hh | apply isin_str_In; exact Ht].
  - destruct (isin_int _ _) eqn:E; [|reflexivity]. exfalso.
    apply isin_int_In, In_unique, in_map_iff in E as (h & E & Hh).
    apply filter_In in Hh as [Hh Ht]. apply isin_str_In in Ht.
    apply (H h Hh Ht). congruence.
Qed.

(** The three ways a run of [analyze_user_portfolio] goes. *)
Lemma analyze_user_portfolio_cases argsort clustered_df user_portfolio top_n :
  let run := analyze_user_portfolio argsort clustered_df user_portfolio top_n in
  (user_stocks clustered_df user_portfolio = [] /\ snd run = Returned [])
  \/ (user_stocks clustered_df user_portfolio <> [] /\
      recommended_stocks clustered_df user_portfolio = [] /\ snd run = Returned [])
  \/ (user_stocks clustered_df user_portfolio <> [] /\
      recommended_stocks clustered_df user_portfolio <> [] /\
      snd run = bind (sort_values argsort (recommended_stocks clustered_df user_portfolio))
                     (fun sorted => Returned (map columns (head top_n sorted)))).
Proof.
  unfold analyze_user_portfolio.
  destruct (user_stocks clustered_df user_portfolio) as [|u us] eqn:U; simpl.
  - left. auto.
  - right. destruct (recommended_stocks clustered_df user_portfolio) as [|c cs] eqn:C; simpl.
    + left. repeat split; congruence.
    + right. repeat split; try congruence.
      destruct (sort_values argsort (c :: cs)); reflexivity.
Qed.

(** C1. Diversification invariant: whatever the table, the holdings, the
    number of rows asked for and the sort, a row that
    [analyze_user_portfolio] returns has a cluster label different from the
    label of every row of the table whose ticker is among the holdings. *)
Theorem diversification_invariant argsort clustered_df user_portfolio top_n recs :
  snd (analyze_user_portfolio argsort clustered_df user_portfolio top_n) = Returned recs ->
  forall r, In r recs ->
  forall h, In h clustered_df -> In (f_Ticker (features h)) user_portfolio ->
  r_Cluster r <> Cluster h.
Proof.
  intros Hrun r Hr h Hh Ht.
  destruct (analyze_user_portfolio_cases argsort clustered_df user_portfolio top_n)
    as [[_ E]|[(_ & _ & E)|(_ & _ & E)]]; rewrite E in Hrun.
  - injection Hrun as <-. contradiction.
  - injection Hrun as <-. contradiction.
  - apply bind_Returned in Hrun as (sorted & Hs & Hrun). injection Hrun as <-.
    apply in_map_iff in Hr as (c & <- & Hc). apply head_In in Hc.
    unfold sort_values in Hs. apply bind_Returned in Hs as (indexer & _ & Hs).
    apply (take_In _ _ Hs) in Hc.
    apply recommended_stocks_spec in Hc as [_ Hc]. simpl. auto.
Qed.

(** C3. No holdings in the table, or no candidate left once the holdings'
    clusters are excluded: [analyze_user_portfolio] returns the empty
    table, and so does not raise. *)
Theorem empty_result_without_error argsort clustered_df user_portfolio top_n :
  (forall r, In r clustered_df -> ~ In (f_Ticker (features r)) user_portfolio)
  \/ (forall r, In r clustered_df ->
        exists h, In h clustered_df /\ In (f_Ticker (features h)) user_portfolio /\
                  Cluster h = Cluster r) ->
  exists log,
    analyze_user_portfolio argsort clustered_df user_portfolio top_n = (log, Returned []).
Proof.
  intros H.
  exists (fst (analyze_user_portfolio argsort clustered_df user_portfolio top_n)).
  rewrite (surjective_pairing (analyze_user_portfolio _ _ _ _)) at 1. f_equal.
  destruct (analyze_user_portfolio_cases argsort clustered_df user_portfolio top_n)
    as [[_ E]|[(_ & _ & E)|(U & C & _)]]; auto.
  exfalso. destruct H as [H|H].
  - apply U. unfold user_stocks.
    destruct (filter _ clustered_df) as [|u us] eqn:F; [reflexivity|].
    assert (In u (u :: us)) as Hu by (left; reflexivity).
    rewrite <- F in Hu. apply filter_In in Hu as [Hu Ht].
    apply isin_str_In in Ht. exfalso. exact (H u Hu Ht).
  - apply C. destruct (recommended_stocks clustered_df user_portfolio) as [|c cs] eqn:F;
      [reflexivity|].
    assert (In c (c :: cs)) as Hc by (left; reflexivity).
    rewrite <- F in Hc. apply recommended_stocks_spec in Hc as [Hc Hne].
    destruct (H c Hc) as (h & Hh & Ht & E). exfalso. apply (Hne h Hh Ht). congruence.
Qed.

(** With a sort that sorts, [sort_values] returns the rows in an order in
    which the average returns never ascend. *)
Lemma sort_values_spec argsort df :
  Numpy.sorts argsort ->
  exists sorted,
    sort_values argsort df = Returned sorted /\
    Permutation sorted df /\
    Numpy.never_ascending (map (fun r => f_Average_Return (features r)) sorted).
Proof.
  intros H. unfold sort_values.
  set (items := map (fun r => f_Average_Return (features r)) df).
  destruct (SortFacts.nargsort_descending_spec items H) as (indexer & -> & P & S).
  simpl. unfold items in P. rewrite length_map in P.
  set (d := blank).
  assert (Forall (fun i => i < List.length df) indexer) as B.
  { apply Forall_forall. intros i Hi. apply (Permutation_in _ P), in_seq in Hi. lia. }
  rewrite (take_map d _ B). eexists. split; [reflexivity|]. split.
  - etransitivity; [apply Permutation_map, P|].
    rewrite SortFacts.map_nth_seq. reflexivity.
  - rewrite map_map. erewrite map_ext_in; [exact S|].
    intros i Hi. rewrite Forall_forall in B. specialize (B i Hi).
    unfold Numpy.key, items.
    rewrite (nth_indep _ nan (f_Average_Return (features d)))
      by (rewrite length_map; exact B).
    symmetry. apply (map_nth (fun r => f_Average_Return (features r))).
Qed.

Lemma nth_error_firstn_Some {A} (n : nat) (l : list A) (i : nat) (x : A) :
  nth_error (firstn n l) i = Some x -> nth_error l i = Some x.
Proof.
  revert n l. induction i as [|i IH]; intros [|n] [|y l]; simpl; try discriminate; auto.
  apply IH.
Qed.

Lemma head_firstn {A} (n : Z) (df : list A) : exists k, head n df = firstn k df.
Proof.
  unfold head. destruct (0 <=? n)%Z; eexists; reflexivity.
Qed.

(** With a stable sort, [sort_values] keeps rows of equal average return
    in the order they have in the frame. *)
Lemma sort_values_stable argsort df sorted (d : clustered_row) :
  Numpy.sorts argsort -> Numpy.stable argsort ->
  sort_values argsort df = Returned sorted ->
  exists indexer,
    sorted = map (fun a => nth a df d) indexer /\
    Forall (fun a => a < List.length df) indexer /\
    Numpy.ties_ascending (map (fun r => f_Average_Return (features r)) df) indexer.
Proof.
  intros H St E. unfold sort_values in E.
  apply bind_Returned in E as (indexer & Hi & E).
  destruct (SortFacts.nargsort_descending_spec
              (map (fun r => f_Average_Return (features r)) df) H) as (indexer' & Hi' & P & _).
  rewrite Hi in Hi'. injection Hi' as <-. rewrite length_map in P.
  assert (Forall (fun i => i < List.length df) indexer) as B.
  { apply Forall_forall. intros i Hin. apply (Permutation_in _ P), in_seq in Hin. lia. }
  rewrite (take_map d _ B) in E. injection E as <-.
  exists indexer. repeat split; [exact B|].
  apply (SortFacts.nargsort_descending_stable _ H St Hi).
Qed.

(** C2, as the code has it.  With a sort that sorts,
    [analyze_user_portfolio] returns rows of the candidate pool (each at
    most as often as it is there), at most [top_n] of them for a count
    [top_n >= 0], in an order in which the average return never ascends.
    Rows of equal average return are in table order when the sort is
    stable; the sort the code asks for, numpy's quicksort, is not. *)
Theorem top_recommendations_ranked argsort clustered_df user_portfolio top_n :
  Numpy.sorts argsort ->
  exists recs rest,
    snd (analyze_user_portfolio argsort clustered_df user_portfolio top_n) = Returned recs /\
    ((0 <= top_n)%Z -> (Z.of_nat (List.length recs) <= top_n)%Z) /\
    Numpy.never_ascending (map r_Average_Return recs) /\
    Permutation (recs ++ rest)
                (map columns (recommended_stocks clustered_df user_portfolio)) /\
    (Numpy.stable argsort -> ties_in_table_order clustered_df recs).
Proof.
  intros H.
  destruct (analyze_user_portfolio_cases argsort clustered_df user_portfolio top_n)
    as [[_ E]|[(_ & C & E)|(_ & _ & E)]]; rewrite E.
  - exists [], (map columns (recommended_stocks clustered_df user_portfolio)).
    split; [reflexivity|]. split; [simpl; lia|]. split; [constructor|].
    split; [reflexivity|].
    intros _ [|i] j ri rj _ Hi; discriminate Hi.
  - exists [], []. rewrite C.
    split; [reflexivity|]. split; [simpl; lia|]. split; [constructor|].
    split; [constructor|].
    intros _ [|i] j ri rj _ Hi; discriminate Hi.
  - destruct (sort_values_spec (recommended_stocks clustered_df user_portfolio) H)
      as (sorted & Hs & P & S). rewrite Hs. simpl.
    destruct (head_firstn top_n sorted) as [m Hm].
    exists (map columns (head top_n sorted)), (map columns (skipn m sorted)).
    split; [reflexivity|]. split; [|split; [|split]].
    + intros Hn. rewrite length_map. apply length_head, Hn.
    + rewrite map_map, Hm.
      change (fun x => r_Average_Return (columns x))
        with (fun r => f_Average_Return (features r)).
      rewrite <- firstn_map. apply SortFacts.SS_firstn, S.
    + rewrite Hm, <- map_app, firstn_skipn. apply Permutation_map, P.
    + intros St i j ri rj Hij Hi Hj T.
      set (pool := recommended_stocks clustered_df user_portfolio) in *.
      set (d := blank).
      destruct (@sort_values_stable argsort pool sorted d H St Hs) as (indexer & -> & B & TA).
      destruct (head_firstn top_n (map (fun a => nth a pool d) indexer)) as [k Hk].
      rewrite Hk, firstn_map, map_map in Hi, Hj.
      rewrite nth_error_map in Hi, Hj.
      destruct (nth_error (firstn k indexer) i) as [a|] eqn:Ea; [|discriminate Hi].
      destruct (nth_error (firstn k indexer) j) as [b|] eqn:Eb; [|discriminate Hj].
      injection Hi as <-. injection Hj as <-.
      apply nth_error_firstn_Some in Ea, Eb.
      rewrite Forall_forall in B.
      pose proof (B a (nth_error_In _ _ Ea)) as La.
      pose proof (B b (nth_error_In _ _ Eb)) as Lb.
      assert (a < b) as Hab.
      { apply (SortFacts.SS_nth_error TA Hij Ea Eb).
        assert (forall c, c < List.length pool ->
                  Numpy.key (map (fun r => f_Average_Return (features r)) pool) c
                  = f_Average_Return (features (nth c pool d))) as K.
        { intros c Hc. unfold Numpy.key.
          rewrite (nth_indep _ nan (f_Average_Return (features d)))
            by (rewrite length_map; exact Hc).
          apply (map_nth (fun r => f_Average_Return (features r))). }
        rewrite (K a La), (K b Lb). exact T. }
      destruct (SortFacts.nth_error_filter_order _ clustered_df Hab
                  (nth_error_nth' pool d La) (nth_error_nth' pool d Lb))
        as (p & q & Hpq & Hp & Hq).
      exists p, q. split; [exact Hpq|].
      split; apply map_nth_error; assumption.
Qed.

(** The universe of three clusters, holdings in cluster 0, five rows asked
    for, a stable sort. *)
Lemma top_recommendations_ranked_witness :
  exists recs rest,
    snd (analyze_user_portfolio Numpy.argsort_stable Scenarios.universe
           Scenarios.holdings 5) = Returned recs /\
    ((0 <= 5)%Z -> (Z.of_nat (List.length recs) <= 5)%Z) /\
    Numpy.never_ascending (map r_Average_Return recs) /\
    Permutation (recs ++ rest)
                (map columns (recommended_stocks Scenarios.universe Scenarios.holdings)) /\
    (Numpy.stable Numpy.argsort_stable -> ties_in_table_order Scenarios.universe recs).
Proof.
  apply (@top_recommendations_ranked Numpy.argsort_stable Scenarios.universe
           Scenarios.holdings 5 SortFacts.argsort_stable_sorts).
Defined.

(** Finds the positions at which a given row stands in a given table. *)
Ltac locate H :=
  repeat match type of H with
         | nth_error _ ?p = _ =>
             is_var p; destruct p as [|p]; simpl in H; try discriminate H
         end.

(** C2 as stated fails.  On a table of twenty candidates with the same
    average return, numpy's quicksort partitions the keys and moves equal
    ones across the pivot: the engine returns ["S18"], ["S17"], ["S16"] in
    this order, which stand in the table as ["S16"], ["S17"], ["S18"]. *)
Lemma ranking_counterexample :
  Numpy.aquicksort (repeat 0.5%float 20)
    = Some [0; 17; 16; 15; 14; 13; 12; 11; 10; 9; 8; 7; 6; 5; 4; 3; 2; 1; 18; 19] /\
  snd (analyze_user_portfolio Numpy.argsort_quicksort Scenarios.plateau ["A"%string] 5)
    = Returned Scenarios.plateau_ranked /\
  ~ ties_in_table_order Scenarios.plateau Scenarios.plateau_ranked.
Proof.
  split; [vm_compute; reflexivity|].
  split; [vm_compute; reflexivity|].
  intros T.
  destruct (T 2 3 (Scenarios.rec "S18" 1 0.5) (Scenarios.rec "S17" 1 0.5))
    as (p & q & Hpq & Hp & Hq); try reflexivity; try lia.
  locate Hp; locate Hq; lia.
Qed.

(** ["G"], the best recommendation for the holdings ["A"] and ["B"], is not
    in the cluster of ["A"]. *)
Lemma diversification_invariant_witness :
  r_Cluster (Scenarios.rec "G" 1 4) <> Cluster (Scenarios.row "A" 0 1).
Proof.
  apply (@diversification_invariant Numpy.argsort_stable Scenarios.universe
           Scenarios.holdings 5 Scenarios.ranked).
  - vm_compute; reflexivity.
  - simpl; auto.
  - simpl; auto.
  - simpl; auto.
Defined.

(** Holdings that are not in the table. *)
Lemma empty_result_without_error_witness :
  exists log,
    analyze_user_portfolio Numpy.argsort_stable Scenarios.universe ["Z"%string] 5
    = (log, Returned []).
Proof.
  apply (@empty_result_without_error Numpy.argsort_stable Scenarios.universe
           ["Z"%string] 5).
  left. intros r Hr. simpl in Hr.
  repeat (destruct Hr as [<-|Hr]; [simpl; intros [E|[]]; discriminate E|]).
  contradiction.
Defined.

(** The tie of the universe, six candidates: quicksort sorts so few keys
    by insertion and leaves ["C"] before ["E"]. *)
Lemma aquicksort_six_candidates :
  Numpy.aquicksort [0.75; 4; 0.25; 0.5; 2; 0.5]%float = Some [2; 3; 5; 0; 4; 1] /\
  snd (analyze_user_portfolio Numpy.argsort_quicksort Scenarios.universe
         Scenarios.holdings 5) = Returned Scenarios.ranked.
Proof.
  split; vm_compute; reflexivity.
Qed.

(** *** Preprocessing *)

Lemma is_infinity_eqb x :
  is_infinity x = ((x =? infinity) || (x =? neg_infinity))%float.
Proof.
  unfold is_infinity.
  rewrite !FloatAxioms.eqb_spec, FloatAxioms.abs_spec.
  replace (Prim2SF infinity) with (S754_infinity false) by reflexivity.
  replace (Prim2SF neg_infinity) with (S754_infinity true) by reflexivity.
  destruct (Prim2SF x) as [s|s| |s m e]; try destruct s; reflexivity.
Qed.

Lemma replace_inf_finite x :
  isna (replace_inf x) = false -> is_finite (replace_inf x) = true.
Proof.
  unfold replace_inf. rewrite <- is_infinity_eqb.
  destruct (is_infinity x) eqn:E; intros H.
  - vm_compute in H. discriminate H.
  - unfold is_finite. unfold isna in H. rewrite H, E. reflexivity.
Qed.

(** The frame handed to the scaler has no missing and no infinite number
    in the four numeric columns. *)
Lemma clean_finite df : Forall (fun r => all_finite (numerical_features r)) (clean df).
Proof.
  unfold clean. apply Forall_forall. intros r Hr.
  apply filter_In in Hr as [Hr Hn].
  apply in_map_iff in Hr as (r0 & <- & _).
  unfold all_finite. unfold numerical_features in *. simpl in *.
  apply negb_true_iff in Hn.
  repeat (apply orb_false_iff in Hn as [Hn ?]).
  rewrite !replace_inf_finite by assumption. reflexivity.
Qed.

Lemma numerical_features_set r v :
  numerical_features (set_numerical_features r v) = v.
Proof.
  destruct v as [[[mc pe] ar] vol]. reflexivity.
Qed.

Lemma map_combine_snd {A B C} (f : A * B -> C) (g : C -> B) (l : list A) (l' : list B) :
  (forall a b, g (f (a, b)) = b) -> List.length l' = List.length l ->
  map g (map f (combine l l')) = l'.
Proof.
  intros H. revert l'. induction l as [|a l IH]; intros [|b l']; simpl; try discriminate;
    [reflexivity|].
  intros E. rewrite H, IH by congruence. reflexivity.
Qed.

(** C7, as the code has it.  Whatever the input table, the frame
    [preprocess_data] hands to the scaler has no infinite and no missing
    value in Market Cap, P/E Ratio, Average Return and Volatility.  The
    frame it returns holds in these columns the values the scaler returned
    for that frame, row by row, and nothing is cleaned after the scaling:
    the returned frame is free of infinite and missing values exactly when
    the output of the scaler is. *)
Theorem preprocess_data_finite fit_transform df log out :
  preprocess_data fit_transform df = (log, Returned out) ->
  Forall (fun r => all_finite (numerical_features r)) (clean df) /\
  exists scaled,
    fit_transform (map numerical_features (clean df)) = Returned scaled /\
    map numerical_features out = scaled /\
    (Forall (fun r => all_finite (numerical_features r)) out <-> Forall all_finite scaled).
Proof.
  intros H. split; [apply clean_finite|].
  unfold preprocess_data in H. simpl in H.
  destruct (fit_transform (map numerical_features (clean df))) as [scaled|e] eqn:F;
    simpl in H; [|discriminate H].
  destruct (Nat.eqb_spec (List.length scaled) (List.length (clean df))) as [L|L];
    simpl in H; [|discriminate H].
  injection H as _ <-. exists scaled. split; [reflexivity|].
  assert (map numerical_features
            (map (fun '(r, v) => set_numerical_features r v) (combine (clean df) scaled))
          = scaled) as E
    by exact (map_combine_snd _ numerical_features _ _
                (fun a b => numerical_features_set a b) L).
  split; [exact E|]. rewrite <- E at 2. symmetry. apply Forall_map.
Qed.

(** Two stocks with finite numbers and one with an infinite P/E ratio: the
    scaler gets the two, and what it returns for them is what
    [preprocess_data] returns. *)
Lemma preprocess_data_finite_witness :
  Forall (fun r => all_finite (numerical_features r))
         (clean [Scenarios.stock "X" 12; Scenarios.stock "Y" infinity;
                 Scenarios.stock "Z" 14]) /\
  exists scaled,
    Sklearn.StandardScaler_fit_transform
      (map numerical_features
           (clean [Scenarios.stock "X" 12; Scenarios.stock "Y" infinity;
                   Scenarios.stock "Z" 14]))
    = Returned scaled /\
    map numerical_features
        [{| f_Ticker := "X"; f_Market_Cap := 0; f_PE_Ratio := -1; f_Average_Return := 0;
            f_Volatility := 0; f_Sector := [("Sector_Energy"%string, true)] |};
         {| f_Ticker := "Z"; f_Market_Cap := 0; f_PE_Ratio := 1; f_Average_Return := 0;
            f_Volatility := 0; f_Sector := [("Sector_Energy"%string, true)] |}]
    = scaled /\
    (Forall (fun r => all_finite (numerical_features r))
       [{| f_Ticker := "X"; f_Market_Cap := 0; f_PE_Ratio := -1; f_Average_Return := 0;
           f_Volatility := 0; f_Sector := [("Sector_Energy"%string, true)] |};
        {| f_Ticker := "Z"; f_Market_Cap := 0; f_PE_Ratio := 1; f_Average_Return := 0;
           f_Volatility := 0; f_Sector := [("Sector_Energy"%string, true)] |}]
     <-> Forall all_finite scaled).
Proof.
  eapply (@preprocess_data_finite Sklearn.StandardScaler_fit_transform).
  vm_compute. reflexivity.
Defined.

(** C7 as stated fails.  Two stocks whose market capitalisations are
    finite and add up to more than a binary64 number holds: the scaler
    takes the frame, the sum of the column overflows, and both rows come
    back with NaN as their market capitalisation. *)
Lemma preprocess_data_overflow_counterexample :
  Forall (fun r => all_finite (numerical_features r))
         (clean [Scenarios.giant "X"; Scenarios.giant "Y"]) /\
  snd (preprocess_data Sklearn.StandardScaler_fit_transform
         [Scenarios.giant "X"; Scenarios.giant "Y"])
  = Returned
      [{| f_Ticker := "X"; f_Market_Cap := nan; f_PE_Ratio := 0; f_Average_Return := 0;
          f_Volatility := 0; f_Sector := [("Sector_Energy"%string, true)] |};
       {| f_Ticker := "Y"; f_Market_Cap := nan; f_PE_Ratio := 0; f_Average_Return := 0;
          f_Volatility := 0; f_Sector := [("Sector_Energy"%string, true)] |}] /\
  ~ Forall (fun r => all_finite (numerical_features r))
      [{| f_Ticker := "X"; f_Market_Cap := nan; f_PE_Ratio := 0; f_Average_Return := 0;
          f_Volatility := 0; f_Sector := [("Sector_Energy"%string, true)] |};
       {| f_Ticker := "Y"; f_Market_Cap := nan; f_PE_Ratio := 0; f_Average_Return := 0;
          f_Volatility := 0; f_Sector := [("Sector_Energy"%string, true)] |}].
Proof.
  split; [apply clean_finite|].
  split; [vm_compute; reflexivity|].
  intros H. inversion H as [|r l F _]. vm_compute in F. discriminate F.
Qed.

(** *** Number of clusters *)

Lemma In_range lo hi k : In k (range lo hi) <-> (lo <= k < hi)%Z.
Proof.
  unfold range. rewrite in_map_iff. split.
  - intros (i & <- & Hi). apply in_seq in Hi. lia.
  - intros H. exists (Z.to_nat (k - lo)). split; [lia|]. apply in_seq. lia.
Qed.

Lemma score_candidates_returns KMeans silhouette X labels inertia score K :
  (forall k, In k K ->
     KMeans X k = Returned (labels k, inertia k) /\
     silhouette X (labels k) = Returned (score k)) ->
  forall wcss silhouette_scores,
    score_candidates KMeans silhouette X K wcss silhouette_scores
    = Returned (wcss ++ map inertia K, silhouette_scores ++ map score K).
Proof.
  induction K as [|k K IH]; simpl; intros H wcss sil.
  - rewrite !app_nil_r. reflexivity.
  - destruct (H k (or_introl eq_refl)) as [-> Hs]. simpl. rewrite Hs. simpl.
    rewrite IH by (intros; apply H; right; assumption).
    rewrite <- !app_assoc. reflexivity.
Qed.

(** C8, as the code has it.  Whenever k-means and the silhouette score
    return for every [k] from 2 to [max_k], [determine_optimal_clusters]
    collects the inertia and the score of every such [k], in order, and
    returns 8, whatever the scores and whatever [X]. *)
Theorem determine_optimal_clusters_constant KMeans silhouette X max_k labels inertia score :
  (forall k, (2 <= k <= max_k)%Z ->
     KMeans X k = Returned (labels k, inertia k) /\
     silhouette X (labels k) = Returned (score k)) ->
  score_candidates KMeans silhouette X (range 2 (max_k + 1)) [] []
  = Returned (map inertia (range 2 (max_k + 1)), map score (range 2 (max_k + 1))) /\
  determine_optimal_clusters KMeans silhouette X max_k = Returned 8%Z.
Proof.
  intros H.
  assert (score_candidates KMeans silhouette X (range 2 (max_k + 1)) [] []
          = Returned (map inertia (range 2 (max_k + 1)), map score (range 2 (max_k + 1))))
    as E.
  { apply (score_candidates_returns KMeans silhouette X labels inertia score).
    intros k Hk. apply In_range in Hk. apply H. lia. }
  split; [exact E|]. unfold determine_optimal_clusters. rewrite E. reflexivity.
Qed.

(** Four rows, and two or three clusters. *)
Lemma determine_optimal_clusters_constant_witness :
  score_candidates Sklearn.KMeans_fit_predict Sklearn.silhouette_score
    Scenarios.four_rows (range 2 (3 + 1)) [] []
  = Returned (map (fun _ => 0%float) (range 2 (3 + 1)),
              map (fun _ => 0%float) (range 2 (3 + 1))) /\
  determine_optimal_clusters Sklearn.KMeans_fit_predict Sklearn.silhouette_score
    Scenarios.four_rows 3 = Returned 8%Z.
Proof.
  apply (@determine_optimal_clusters_constant Sklearn.KMeans_fit_predict
           Sklearn.silhouette_score Scenarios.four_rows 3
           (fun k => map (fun i => (Z.of_nat i mod k)%Z) (seq 0 4))
           (fun _ => 0%float) (fun _ => 0%float)).
  intros k Hk. assert (k = 2 \/ k = 3)%Z as [-> | ->] by lia; split; reflexivity.
Defined.

(** C8 as stated fails: on a matrix of three rows the silhouette score of
    three clusters is refused, and [determine_optimal_clusters] raises
    instead of returning 8. *)
Lemma determine_optimal_clusters_counterexample :
  determine_optimal_clusters Sklearn.KMeans_fit_predict Sklearn.silhouette_score
    Scenarios.three_rows 10
  = Raised (ValueError "Number of labels is invalid: valid values are 2 to n_samples - 1").
Proof.
  vm_compute. reflexivity.
Qed.

End StockRiskProps.

(** ** The forecast selector *)

Module ForecastProps.

Import Forecast PyFacts FloatFacts.

(** *** The order of the ARMA model *)

Lemma cutoff_spec vals threshold : forall i, 1 <= i ->
  let p := cutoff vals i threshold in
  (i <= p < i + List.length vals /\
   (abs (nth (p - i) vals nan) <? threshold)%float = true /\
   forall j, j < p - i -> (abs (nth j vals nan) <? threshold)%float = false)
  \/ (p = 0 /\
      forall j, j < List.length vals -> (abs (nth j vals nan) <? threshold)%float = false).
Proof.
  induction vals as [|v rest IH]; simpl; intros i Hi.
  - right. split; [reflexivity | intros; lia].
  - destruct (abs v <? threshold)%float eqn:E.
    + left. split; [lia|]. replace (i - i) with 0 by lia.
      split; [exact E | intros; lia].
    + destruct (IH (S i)) as [(B & T & F)|(Z0 & F)]; [lia | left | right].
      * split; [lia|]. split.
        -- replace (cutoff rest (S i) threshold - i)
             with (S (cutoff rest (S i) threshold - S i)) by lia. exact T.
        -- intros [|j] Hj; [exact E|]. apply F. lia.
      * split; [exact Z0|]. intros [|j] Hj; [exact E|]. apply F. lia.
Qed.

Lemma cutoff_first_lag_below v0 rest max_lag threshold :
  List.length (v0 :: rest) = S max_lag ->
  first_lag_below (v0 :: rest) max_lag threshold (cutoff rest 1 threshold).
Proof.
  intros L. simpl in L. injection L as L. unfold first_lag_below.
  destruct (@cutoff_spec rest threshold 1 (le_n 1)) as [(B & T & F)|(Z0 & F)];
    [left | right].
  - split; [lia|]. split.
    + replace (cutoff rest 1 threshold) with (S (cutoff rest 1 threshold - 1)) at 1 by lia.
      exact T.
    + intros [|i] Hi; [lia|]. simpl. apply F. lia.
  - split; [exact Z0|]. intros [|i] Hi; [lia|]. simpl. apply F. lia.
Qed.

(** C9. Given the partial autocorrelations and the autocorrelations of the
    series at lags 0 to [max_lag], [determine_arma_order] returns [(p, q)]
    where [p] is the smallest lag from 1 to [max_lag] at which the partial
    autocorrelation is below the threshold in magnitude, 0 when there is
    none, and [q] is the same for the autocorrelation; [max_lag] is 10 and
    the threshold 0.2 by default. *)
Theorem determine_arma_order_first_cutoff {libraries : Libraries}
    series max_lag threshold pacf_vals acf_vals :
  pacf series max_lag = Returned pacf_vals ->
  acf series max_lag = Returned acf_vals ->
  List.length pacf_vals = S max_lag ->
  List.length acf_vals = S max_lag ->
  exists p q,
    determine_arma_order series max_lag threshold = Returned (p, q) /\
    first_lag_below pacf_vals max_lag threshold p /\
    first_lag_below acf_vals max_lag threshold q.
Proof.
  intros Hp Hq Lp Lq. unfold determine_arma_order. rewrite Hp, Hq. simpl.
  destruct pacf_vals as [|p0 prest]; [discriminate Lp|].
  destruct acf_vals as [|q0 qrest]; [discriminate Lq|].
  simpl List.tl. eexists _, _. split; [reflexivity|].
  split; apply cutoff_first_lag_below; assumption.
Qed.

(** Autocorrelations that vanish from lag 1 on: the order is (1, 1). *)
Lemma determine_arma_order_first_cutoff_witness :
  exists p q,
    @determine_arma_order (Scenarios.market true true true) (map snd Scenarios.prices)
      default_max_lag default_threshold = Returned (p, q) /\
    first_lag_below (repeat 0%float 11) default_max_lag default_threshold p /\
    first_lag_below (repeat 0%float 11) default_max_lag default_threshold q.
Proof.
  apply (@determine_arma_order_first_cutoff (Scenarios.market true true true)
           (map snd Scenarios.prices) default_max_lag default_threshold
           (repeat 0%float 11) (repeat 0%float 11)); reflexivity.
Defined.

(** *** The dates of the ARMA forecast *)

Lemma weekday_succ d : weekday (d + 1) = ((weekday d + 1) mod 7)%Z.
Proof.
  unfold weekday. rewrite Zplus_mod_idemp_l. f_equal. lia.
Qed.

Lemma length_business_days fuel : forall d n,
  List.length (business_days fuel d n) = business_days_found fuel (weekday d) n.
Proof.
  induction fuel as [|fuel IH]; intros d [|n]; simpl; try reflexivity.
  rewrite weekday_succ.
  destruct (_ <? 5)%Z; simpl; rewrite IH, weekday_succ; reflexivity.
Qed.

(** X3. The loop that collects the seven forecast dates ends within 21
    passes, whatever the last date of the history. *)
Lemma business_days_enough_fuel d : List.length (business_days 21 d 7) = 7.
Proof.
  rewrite length_business_days.
  assert (0 <= weekday d < 7)%Z as H by (apply Z.mod_pos_bound; lia).
  assert (weekday d = 0 \/ weekday d = 1 \/ weekday d = 2 \/ weekday d = 3 \/
          weekday d = 4 \/ weekday d = 5 \/ weekday d = 6)%Z
    as [-> | [-> | [-> | [-> | [-> | [-> | ->]]]]]] by lia; reflexivity.
Qed.

(** *** The choice between the two models *)

Section Main.

Context {libraries : Libraries}.

Lemma better_model_select prophet arma_mse :
  better_model prophet arma_mse = select_better_model arma_mse (prophet_score prophet).
Proof.
  destruct prophet; reflexivity.
Qed.

(** What [main] does once both backtests returned and the trend model is
    the better one. *)
Lemma main_prophet_chosen ticker l arma_mse :
  prophet_execution ticker = Returned (Some l) ->
  arma_execution ticker (get_stock_data_arma ticker "2022-11-06" "2024-11-06")
    = Returned arma_mse ->
  select_better_model arma_mse (mse (fitted l)) = Prophet ->
  main ticker =
    ([ Print "Finding the better model...";
       PlotProphet (future_predictions (fitted l));
       Print "predicting with the best model and plotting...";
       Print (LF ++ "Future Predictions for next 7 days with Prophet:")%string;
       PrintPredictions
         (map (fun r => (date r, predicted_price r)) (future_metrics_prophet l)) ],
     Returned tt).
Proof.
  intros Hp Ha Hs. unfold main. rewrite Hp, Ha. simpl.
  unfold better_model. rewrite Hs. reflexivity.
Qed.

(** Neither model has a finite score and nothing was raised: [main] says
    so and returns. *)
Lemma main_no_predictions ticker arma_mse :
  prophet_execution ticker = Returned None ->
  arma_execution ticker (get_stock_data_arma ticker "2022-11-06" "2024-11-06")
    = Returned arma_mse ->
  (arma_mse <? infinity)%float = false ->
  main ticker =
    ([ Print "Finding the better model...";
       Print "predicting with the best model and plotting...";
       Print (LF ++ "No predictions available.")%string ],
     Returned tt).
Proof.
  intros Hp Ha Hs. unfold main. rewrite Hp, Ha. simpl.
  unfold better_model. rewrite Hs. reflexivity.
Qed.

(** What the trend model's execution raises, [main] raises, before
    anything is printed. *)
Lemma main_prophet_raises ticker e :
  prophet_execution ticker = Raised e -> main ticker = ([], Raised e).
Proof.
  intros Hp. unfold main. rewrite Hp. reflexivity.
Qed.

(** A history of ten rows or more on which Prophet's fit raises: the
    handler of [train_and_predict_prophet] raises it again. *)
Lemma prophet_execution_fit_raises ticker df_prophet e :
  get_stock_data_prophet ticker "2y" = Returned df_prophet ->
  10 <= List.length df_prophet ->
  Prophet_fit (iloc df_prophet None (Some (-2)%Z)) = Raised e ->
  prophet_execution ticker = Raised e.
Proof.
  intros Hd Hl Hf. unfold prophet_execution. rewrite Hd. simpl.
  destruct (Nat.ltb_spec (List.length df_prophet) 10); [lia|].
  unfold train_and_predict_prophet. rewrite Hf. reflexivity.
Qed.

(** X4. An ARMA fit that fails: [evaluate_arma] reports an infinite score.
    So it does when the two-step forecast raises, and [main] when the
    history is short. *)
Theorem evaluate_arma_fit_failure df ticker order :
  let arma_train := map Close (iloc df (Some (-32)%Z) (Some (-2)%Z)) in
  determine_arma_order arma_train default_max_lag default_threshold = Returned order ->
  fit_arma_model arma_train order = None ->
  evaluate_arma df ticker = Returned infinity.
Proof.
  intros arma_train Ho Hf. unfold evaluate_arma.
  destruct (_ || _); [reflexivity|].
  fold arma_train. rewrite Ho. simpl. rewrite Hf. reflexivity.
Qed.

Lemma evaluate_arma_forecast_failure df ticker order arma_model e :
  let arma_train := map Close (iloc df (Some (-32)%Z) (Some (-2)%Z)) in
  determine_arma_order arma_train default_max_lag default_threshold = Returned order ->
  fit_arma_model arma_train order = Some arma_model ->
  ARIMA_forecast arma_model 2 = Raised e ->
  evaluate_arma df ticker = Returned infinity.
Proof.
  intros arma_train Ho Hf He. unfold evaluate_arma.
  destruct (_ || _); [reflexivity|].
  fold arma_train. rewrite Ho. simpl. rewrite Hf, He. reflexivity.
Qed.

Lemma arma_execution_short_history ticker df_arma :
  match df_arma with Some df => List.length df < 32 | None => True end ->
  arma_execution ticker df_arma = Returned infinity.
Proof.
  destruct df_arma as [df|]; simpl; intros H; [|reflexivity].
  destruct (Nat.ltb_spec (List.length df) 32); [reflexivity | lia].
Qed.

End Main.

(** A market in which the ARMA fit raises. *)
Lemma evaluate_arma_fit_failure_witness :
  @evaluate_arma (Scenarios.market true true false)
     (map (fun '(d, c) => {| Date := d; Close := c |}) Scenarios.prices) "AAPL"
  = Returned infinity.
Proof.
  apply (@evaluate_arma_fit_failure (Scenarios.market true true false) _ "AAPL"%string (1, 1));
    reflexivity.
Defined.

(** C4. The selector chooses the ARMA model exactly when its backtest MSE
    is strictly below the trend model's, in [select_better_model] and in
    [main], where a trend model without a backtest counts as infinitely
    bad.  With MSE 2.0 for the trend model and 5.0 for ARMA it chooses the
    trend model, and [main] then plots and prints the trend model's
    seven-day projection. *)
Theorem forecast_selector_choice :
  (forall arma_mse prophet_mse,
     select_better_model arma_mse prophet_mse = ARMA <->
     (arma_mse <? prophet_mse)%float = true) /\
  (forall (libraries : Libraries) prophet arma_mse,
     better_model prophet arma_mse = ARMA <->
     (arma_mse <? prophet_score prophet)%float = true) /\
  select_better_model 5 2 = Prophet /\
  (forall (libraries : Libraries) ticker l,
     prophet_execution ticker = Returned (Some l) ->
     mse (fitted l) = 2%float ->
     arma_execution ticker (get_stock_data_arma ticker "2022-11-06" "2024-11-06")
       = Returned 5%float ->
     better_model (Some l) 5 = Prophet /\
     main ticker =
       ([ Print "Finding the better model...";
          PlotProphet (future_predictions (fitted l));
          Print "predicting with the best model and plotting...";
          Print (LF ++ "Future Predictions for next 7 days with Prophet:")%string;
          PrintPredictions
            (map (fun r => (date r, predicted_price r))
                 (get_future_prediction_metrics_prophet (future_predictions (fitted l)))) ],
        Returned tt)).
Proof.
  assert (forall a p, select_better_model a p = ARMA <-> (a <? p)%float = true) as S.
  { intros a p. unfold select_better_model. destruct (a <? p)%float; split; congruence. }
  split; [exact S|]. split; [|split].
  - intros libraries prophet a. rewrite better_model_select. apply S.
  - reflexivity.
  - intros libraries ticker l Hp Hm Ha.
    assert (select_better_model 5 (mse (fitted l)) = Prophet) as Hs
      by (rewrite Hm; reflexivity).
    split; [exact Hs|].
    rewrite (main_prophet_chosen ticker Hp Ha Hs).
    repeat f_equal.
    unfold prophet_execution in Hp.
    apply bind_Returned in Hp as (df & _ & Hp).
    destruct (_ <? 10); [discriminate Hp|].
    apply bind_Returned in Hp as (r & _ & Hp). injection Hp as <-. reflexivity.
Qed.

(** The market of the scenario: both models fit, with backtest errors 2.0
    for the trend model and 5.0 for ARMA. *)
#[local] Instance scenario_market : Libraries := Scenarios.market true true true.

Lemma forecast_selector_choice_witness :
  exists l,
    prophet_execution "AAPL" = Returned (Some l) /\
    better_model (Some l) 5 = Prophet /\
    main "AAPL" =
      ([ Print "Finding the better model...";
         PlotProphet (future_predictions (fitted l));
         Print "predicting with the best model and plotting...";
         Print (LF ++ "Future Predictions for next 7 days with Prophet:")%string;
         PrintPredictions
           (map (fun r => (date r, predicted_price r))
                (get_future_prediction_metrics_prophet (future_predictions (fitted l)))) ],
       Returned tt).
Proof.
  eexists. split; [reflexivity|].
  apply (proj2 (proj2 (proj2 forecast_selector_choice)) scenario_market "AAPL"%string);
    reflexivity.
Defined.

(** C5 fails on the code.  Whenever the history has ten rows or more and
    Prophet's fit raises, [main] ends with that exception, whatever the
    ARMA model would have done: [train_and_predict_prophet] catches it only
    to raise it again, so no infinite score is reported and ARMA is never
    selected. *)
Theorem prophet_fit_failure_escapes {libraries : Libraries} ticker df_prophet e :
  get_stock_data_prophet ticker "2y" = Returned df_prophet ->
  10 <= List.length df_prophet ->
  Prophet_fit (iloc df_prophet None (Some (-2)%Z)) = Raised e ->
  main ticker = ([], Raised e).
Proof.
  intros Hd Hl Hf.
  apply main_prophet_raises, (prophet_execution_fit_raises ticker Hd Hl Hf).
Qed.

(** In a market where the ARMA model backtests with a finite error (5.0)
    and Prophet's fit raises, nothing is forecast. *)
Lemma prophet_fit_failure_escapes_witness :
  @arma_execution (Scenarios.market false true true) "AAPL"
     (@get_stock_data_arma (Scenarios.market false true true) "AAPL"
        "2022-11-06" "2024-11-06")
    = Returned 5%float /\
  @main (Scenarios.market false true true) "AAPL"
    = ([], Raised (RuntimeError "Error during optimization")).
Proof.
  split; [vm_compute; reflexivity|].
  apply (@prophet_fit_failure_escapes (Scenarios.market false true true) "AAPL"%string
           (map (fun '(d, c) => {| ds := d; y := c |}) Scenarios.prices)).
  - reflexivity.
  - vm_compute. lia.
  - reflexivity.
Defined.

(** C6 fails on the code.  In a market where there are no prices for the
    ARMA model (its score is infinite) and Prophet's fit raises, [main]
    ends with that exception and prints nothing. *)
Theorem both_fits_fail_raises :
  @arma_execution (Scenarios.market false false true) "AAPL"
     (@get_stock_data_arma (Scenarios.market false false true) "AAPL" "2022-11-06" "2024-11-06")
    = Returned infinity /\
  @main (Scenarios.market false false true) "AAPL"
    = ([], Raised (RuntimeError "Error during optimization")).
Proof.
  split; vm_compute; reflexivity.
Qed.

(** X1. The ARMA model has an infinite score (no prices, a short history,
    a fit or a forecast that failed) and the trend model was fitted: [main]
    shows the trend model's projection. *)
Theorem arma_failure_favors_prophet {libraries : Libraries} ticker l :
  prophet_execution ticker = Returned (Some l) ->
  arma_execution ticker (get_stock_data_arma ticker "2022-11-06" "2024-11-06")
    = Returned infinity ->
  main ticker =
    ([ Print "Finding the better model...";
       PlotProphet (future_predictions (fitted l));
       Print "predicting with the best model and plotting...";
       Print (LF ++ "Future Predictions for next 7 days with Prophet:")%string;
       PrintPredictions
         (map (fun r => (date r, predicted_price r)) (future_metrics_prophet l)) ],
     Returned tt).
Proof.
  intros Hp Ha. apply (main_prophet_chosen ticker Hp Ha).
  unfold select_better_model. rewrite infinity_not_ltb. reflexivity.
Qed.

(** A market without prices for the ARMA model. *)
Lemma arma_failure_favors_prophet_witness :
  exists l,
    @prophet_execution (Scenarios.market true false true) "AAPL" = Returned (Some l) /\
    @main (Scenarios.market true false true) "AAPL" =
      ([ Print "Finding the better model...";
         PlotProphet (future_predictions (fitted l));
         Print "predicting with the best model and plotting...";
         Print (LF ++ "Future Predictions for next 7 days with Prophet:")%string;
         PrintPredictions
           (map (fun r => (date r, predicted_price r)) (future_metrics_prophet l)) ],
       Returned tt).
Proof.
  eexists. split; [reflexivity|].
  apply (@arma_failure_favors_prophet (Scenarios.market true false true) "AAPL"%string);
    reflexivity.
Defined.

(** X2. The history of the trend model has fewer than ten rows and the
    ARMA model has no finite score: [main] prints that no predictions are
    available and returns. *)
Theorem short_history_no_predictions {libraries : Libraries} ticker df_prophet arma_mse :
  get_stock_data_prophet ticker "2y" = Returned df_prophet ->
  List.length df_prophet < 10 ->
  arma_execution ticker (get_stock_data_arma ticker "2022-11-06" "2024-11-06")
    = Returned arma_mse ->
  (arma_mse <? infinity)%float = false ->
  main ticker =
    ([ Print "Finding the better model...";
       Print "predicting with the best model and plotting...";
       Print (LF ++ "No predictions available.")%string ],
     Returned tt).
Proof.
  intros Hd Hl Ha Hs. apply (main_no_predictions ticker (arma_mse := arma_mse)); auto.
  unfold prophet_execution. rewrite Hd. simpl.
  destruct (Nat.ltb_spec (List.length df_prophet) 10); [reflexivity | lia].
Qed.

(** A stock with five days of prices. *)
Lemma short_history_no_predictions_witness :
  @main Scenarios.new_listing "NEWCO" =
    ([ Print "Finding the better model...";
       Print "predicting with the best model and plotting...";
       Print (LF ++ "No predictions available.")%string ],
     Returned tt).
Proof.
  apply (@short_history_no_predictions Scenarios.new_listing "NEWCO"%string
           (map (fun '(d, c) => {| ds := d; y := c |}) (firstn 5 Scenarios.prices))
           infinity).
  - reflexivity.
  - simpl. lia.
  - reflexivity.
  - reflexivity.
Defined.

(** C10. Equal backtest errors, both infinite included: the selector
    returns the trend model. *)
Theorem ties_favor_prophet arma_mse prophet_mse :
  (arma_mse =? prophet_mse)%float = true ->
  select_better_model arma_mse prophet_mse = Prophet.
Proof.
  intros H. unfold select_better_model. rewrite (eqb_not_ltb H). reflexivity.
Qed.

(** Both models failed: the selector still names the trend model. *)
Lemma ties_favor_prophet_witness : select_better_model infinity infinity = Prophet.
Proof.
  apply (@ties_favor_prophet infinity infinity). reflexivity.
Defined.

End ForecastProps.

(** ** More of the recommendation engine *)

Module RecommendationFacts.

Import StockRisk PyFacts StockRiskProps.

Lemma SS_app_inv {A} (R : A -> A -> Prop) (l1 l2 : list A) :
  StronglySorted R (l1 ++ l2) -> forall x y, In x l1 -> In y l2 -> R x y.
Proof.
  induction l1 as [|a l1 IH]; simpl; intros S x y Hx Hy; [contradiction|].
  apply StronglySorted_inv in S as [S F]. destruct Hx as [<-|Hx].
  - rewrite Forall_forall in F. apply F, in_or_app. right. exact Hy.
  - apply IH; assumption.
Qed.

(** X5. A stock the user holds is never recommended: no returned ticker is
    among the holdings. *)
Theorem holdings_not_recommended argsort clustered_df user_portfolio top_n recs :
  snd (analyze_user_portfolio argsort clustered_df user_portfolio top_n) = Returned recs ->
  forall r, In r recs -> ~ In (r_Ticker r) user_portfolio.
Proof.
  intros Hrun r Hr Ht.
  destruct (analyze_user_portfolio_cases argsort clustered_df user_portfolio top_n)
    as [[_ E]|[(_ & _ & E)|(_ & _ & E)]]; rewrite E in Hrun.
  - injection Hrun as <-. contradiction.
  - injection Hrun as <-. contradiction.
  - apply bind_Returned in Hrun as (sorted & Hs & Hrun). injection Hrun as <-.
    apply in_map_iff in Hr as (c & <- & Hc). apply head_In in Hc.
    unfold sort_values in Hs. apply bind_Returned in Hs as (indexer & _ & Hs).
    apply (take_In _ _ Hs) in Hc.
    apply recommended_stocks_spec in Hc as [Hc Hne].
    exact (Hne c Hc Ht eq_refl).
Qed.

(** The recommendations for the holdings ["A"] and ["B"] name neither. *)
Lemma holdings_not_recommended_witness :
  ~ In (r_Ticker (Scenarios.rec "G" 1 4)) Scenarios.holdings.
Proof.
  apply (@holdings_not_recommended Numpy.argsort_stable Scenarios.universe
           Scenarios.holdings 5 Scenarios.ranked).
  - vm_compute; reflexivity.
  - simpl; auto.
Defined.

(** X6. When a holding is found in the table, the rows returned are the
    best of the candidate pool: there are as many as asked for, or as many
    as there are candidates when these are fewer, and no candidate left
    out has a larger average return than a row returned. *)
Theorem top_n_are_the_best argsort clustered_df user_portfolio top_n :
  Numpy.sorts argsort ->
  (0 <= top_n)%Z ->
  user_stocks clustered_df user_portfolio <> [] ->
  exists recs rest,
    snd (analyze_user_portfolio argsort clustered_df user_portfolio top_n) = Returned recs /\
    Permutation (recs ++ rest)
                (map columns (recommended_stocks clustered_df user_portfolio)) /\
    List.length recs
      = Nat.min (Z.to_nat top_n)
                (List.length (recommended_stocks clustered_df user_portfolio)) /\
    forall r c, In r recs -> In c rest ->
      (r_Average_Return r <? r_Average_Return c)%float = false.
Proof.
  intros H Hn Hu.
  destruct (analyze_user_portfolio_cases argsort clustered_df user_portfolio top_n)
    as [[U _]|[(_ & C & E)|(_ & _ & E)]]; [contradiction| |]; rewrite E.
  - exists [], []. rewrite C. simpl. rewrite Nat.min_0_r.
    repeat split; try constructor. intros r c [].
  - destruct (sort_values_spec (recommended_stocks clustered_df user_portfolio) H)
      as (sorted & -> & P & S). simpl.
    unfold head. destruct (Z.leb_spec 0 top_n); [|lia].
    exists (map columns (firstn (Z.to_nat top_n) sorted)),
           (map columns (skipn (Z.to_nat top_n) sorted)).
    split; [reflexivity|]. split; [|split].
    + rewrite <- map_app, firstn_skipn. apply Permutation_map, P.
    + rewrite length_map, length_firstn, (Permutation_length P). reflexivity.
    + intros r c Hr Hc.
      apply in_map_iff in Hr as (r0 & <- & Hr). apply in_map_iff in Hc as (c0 & <- & Hc).
      unfold Numpy.never_ascending in S.
      rewrite <- (firstn_skipn (Z.to_nat top_n) sorted), map_app in S.
      apply (@SS_app_inv _ _ _ _ S (f_Average_Return (features r0))
               (f_Average_Return (features c0)));
        apply (in_map (fun r => f_Average_Return (features r))); assumption.
Qed.

Lemma top_n_are_the_best_witness :
  exists recs rest,
    snd (analyze_user_portfolio Numpy.argsort_stable Scenarios.universe
           Scenarios.holdings 5) = Returned recs /\
    Permutation (recs ++ rest)
                (map columns (recommended_stocks Scenarios.universe Scenarios.holdings)) /\
    List.length recs
      = Nat.min (Z.to_nat 5)
                (List.length (recommended_stocks Scenarios.universe Scenarios.holdings)) /\
    forall r c, In r recs -> In c rest ->
      (r_Average_Return r <? r_Average_Return c)%float = false.
Proof.
  apply (@top_n_are_the_best Numpy.argsort_stable Scenarios.universe Scenarios.holdings 5
           SortFacts.argsort_stable_sorts).
  - lia.
  - vm_compute. discriminate.
Defined.

(** X7. Only which tickers of the table are held matters: two holdings
    lists that name the same rows of the table, in whatever order, however
    often, and whatever unknown tickers they add, give the same run. *)
Theorem holdings_as_a_set argsort clustered_df portfolio1 portfolio2 top_n :
  (forall r, In r clustered_df ->
     (In (f_Ticker (features r)) portfolio1 <-> In (f_Ticker (features r)) portfolio2)) ->
  analyze_user_portfolio argsort clustered_df portfolio1 top_n
  = analyze_user_portfolio argsort clustered_df portfolio2 top_n.
Proof.
  intros H.
  assert (user_stocks clustered_df portfolio1 = user_stocks clustered_df portfolio2) as U.
  { unfold user_stocks. apply filter_ext_in. intros r Hr.
    destruct (isin_str (f_Ticker (features r)) portfolio2) eqn:E.
    - apply isin_str_In. apply H, isin_str_In; assumption.
    - destruct (isin_str (f_Ticker (features r)) portfolio1) eqn:E'; [|reflexivity].
      apply isin_str_In, H, isin_str_In in E'; [congruence | exact Hr]. }
  unfold analyze_user_portfolio, recommended_stocks, user_clusters. rewrite U. reflexivity.
Qed.

(** ["B"], ["A"], and a ticker that is not listed, for ["A"] and ["B"]. *)
Lemma holdings_as_a_set_witness :
  analyze_user_portfolio Numpy.argsort_stable Scenarios.universe
    ["B"; "A"; "B"; "ZZZ"]%string 5
  = analyze_user_portfolio Numpy.argsort_stable Scenarios.universe Scenarios.holdings 5.
Proof.
  apply (@holdings_as_a_set Numpy.argsort_stable Scenarios.universe
           ["B"; "A"; "B"; "ZZZ"]%string Scenarios.holdings 5).
  intros r Hr. simpl in Hr.
  repeat (destruct Hr as [<-|Hr]; [simpl; intuition discriminate|]).
  contradiction.
Defined.

End RecommendationFacts.

(** ** More of the forecast selector *)

Module ForecastFacts.

Import Forecast PyFacts FloatFacts ForecastProps.

(** *** The split into training and test rows *)

Lemma iloc_all_but_last_two {A} (df : list A) :
  iloc df None (Some (-2)%Z) = firstn (List.length df - 2) df.
Proof.
  unfold iloc, slice_bound. simpl. f_equal. lia.
Qed.

Lemma iloc_last_two {A} (df : list A) :
  iloc df (Some (-2)%Z) None = skipn (List.length df - 2) df.
Proof.
  unfold iloc, slice_bound. simpl.
  replace (Z.to_nat (Z.max (Z.of_nat (List.length df) + -2) 0))
    with (List.length df - 2) by lia.
  apply firstn_all2. rewrite length_skipn. lia.
Qed.

Lemma iloc_thirty_before {A} (df : list A) :
  iloc df (Some (-32)%Z) (Some (-2)%Z)
  = firstn (List.length df - 2 - (List.length df - 32)) (skipn (List.length df - 32) df).
Proof.
  unfold iloc, slice_bound. simpl. f_equal; [|f_equal]; lia.
Qed.

(** X8. The training and the test rows partition the history: the test
    rows are its last two rows and the trend model trains on all the rows
    before them; from 32 rows on, the ARMA model trains on exactly the 30
    rows before the test rows. *)
Theorem train_test_split {A} (df : list A) :
  2 <= List.length df ->
  iloc df None (Some (-2)%Z) ++ iloc df (Some (-2)%Z) None = df /\
  List.length (iloc df (Some (-2)%Z) None) = 2 /\
  (32 <= List.length df ->
   exists older,
     older ++ iloc df (Some (-32)%Z) (Some (-2)%Z) ++ iloc df (Some (-2)%Z) None = df /\
     List.length (iloc df (Some (-32)%Z) (Some (-2)%Z)) = 30).
Proof.
  intros H. rewrite iloc_all_but_last_two, iloc_last_two, iloc_thirty_before.
  split; [apply firstn_skipn|]. split; [rewrite length_skipn; lia|].
  intros H32. exists (firstn (List.length df - 32) df). split.
  - replace (skipn (List.length df - 2) df)
      with (skipn (List.length df - 2 - (List.length df - 32))
                  (skipn (List.length df - 32) df))
      by (rewrite skipn_skipn; f_equal; lia).
    rewrite firstn_skipn. apply firstn_skipn.
  - rewrite length_firstn, length_skipn. lia.
Qed.

(** Forty days of prices. *)
Lemma train_test_split_witness :
  iloc Scenarios.prices None (Some (-2)%Z) ++ iloc Scenarios.prices (Some (-2)%Z) None
    = Scenarios.prices /\
  List.length (iloc Scenarios.prices (Some (-2)%Z) None) = 2 /\
  (32 <= List.length Scenarios.prices ->
   exists older,
     older ++ iloc Scenarios.prices (Some (-32)%Z) (Some (-2)%Z)
           ++ iloc Scenarios.prices (Some (-2)%Z) None = Scenarios.prices /\
     List.length (iloc Scenarios.prices (Some (-32)%Z) (Some (-2)%Z)) = 30).
Proof.
  apply (@train_test_split _ Scenarios.prices). vm_compute. lia.
Defined.

(** *** The backtest of the ARMA model *)

(** X9. On a history of fewer than 32 rows [evaluate_arma] reports an
    infinite score without calling any library: its own guard is the one
    [main] applies before it. *)
Theorem evaluate_arma_short_history {libraries : Libraries} df ticker :
  List.length df < 32 -> evaluate_arma df ticker = Returned infinity.
Proof.
  intros H. unfold evaluate_arma.
  rewrite iloc_thirty_before, iloc_last_two.
  destruct (Nat.ltb_spec
              (List.length (firstn (List.length df - 2 - (List.length df - 32))
                              (skipn (List.length df - 32) df))) 30) as [_|L];
    [reflexivity|].
  rewrite length_firstn, length_skipn in L. lia.
Qed.

(** Thirty-one days of prices, in a market whose libraries all answer. *)
Lemma evaluate_arma_short_history_witness :
  @evaluate_arma (Scenarios.market true true true)
     (map (fun '(d, c) => {| Date := d; Close := c |}) (firstn 31 Scenarios.prices)) "AAPL"
  = Returned infinity.
Proof.
  apply (@evaluate_arma_short_history (Scenarios.market true true true)).
  vm_compute. lia.
Defined.

(** X10. On a history of 32 rows or more, when the order, the fit and the
    two-step forecast succeed, the score [evaluate_arma] returns is the
    mean squared error between the last two closing prices and the
    forecast of a model fitted on the 30 closing prices before them. *)
Theorem evaluate_arma_backtest {libraries : Libraries} df ticker order arma_model arma_pred :
  32 <= List.length df ->
  let arma_train := map Close (firstn 30 (skipn (List.length df - 32) df)) in
  let arma_test := map Close (skipn (List.length df - 2) df) in
  determine_arma_order arma_train default_max_lag default_threshold = Returned order ->
  fit_arma_model arma_train order = Some arma_model ->
  ARIMA_forecast arma_model 2 = Returned arma_pred ->
  List.length arma_pred = 2 ->
  evaluate_arma df ticker = mean_squared_error arma_test arma_pred.
Proof.
  intros H arma_train arma_test Ho Hf Hp L. unfold evaluate_arma.
  rewrite iloc_thirty_before, iloc_last_two.
  replace (List.length df - 2 - (List.length df - 32)) with 30 by lia.
  fold arma_train arma_test.
  assert (List.length (firstn 30 (skipn (List.length df - 32) df)) = 30) as L30
    by (rewrite length_firstn, length_skipn; lia).
  assert (List.length (skipn (List.length df - 2) df) = 2) as L2
    by (rewrite length_skipn; lia).
  rewrite L30, L2. simpl. rewrite Ho. simpl. rewrite Hf, Hp.
  unfold arma_test. rewrite length_map, L2, L. reflexivity.
Qed.

(** The market of the scenario: the score is 5.0. *)
Lemma evaluate_arma_backtest_witness :
  @evaluate_arma (Scenarios.market true true true)
     (map (fun '(d, c) => {| Date := d; Close := c |}) Scenarios.prices) "AAPL"
  = Sklearn.mean_squared_error [100; 100]%float [103; 101]%float.
Proof.
  apply (@evaluate_arma_backtest (Scenarios.market true true true)
           (map (fun '(d, c) => {| Date := d; Close := c |}) Scenarios.prices)
           "AAPL"%string (1, 1) tt [103; 101]%float);
    try reflexivity.
  vm_compute. lia.
Defined.

(** *** The dates of the ARMA forecast, again *)

Lemma business_days_spec fuel : forall d n,
  StronglySorted Z.lt (business_days fuel d n) /\
  Forall (fun x => (d < x)%Z /\ (weekday x < 5)%Z) (business_days fuel d n) /\
  forall x, (d < x)%Z -> (weekday x < 5)%Z ->
    In x (business_days fuel d n) \/ Forall (fun y => (y < x)%Z) (business_days fuel d n).
Proof.
  induction fuel as [|fuel IH]; intros d n.
  - assert (business_days 0 d n = []) as -> by (destruct n; reflexivity).
    split; [constructor|]. split; [constructor|]. intros; right; constructor.
  - destruct n as [|n]; simpl.
    { split; [constructor|]. split; [constructor|]. intros; right; constructor. }
    destruct (Z.ltb_spec (weekday (d + 1)) 5) as [W|W].
    + destruct (IH (d + 1)%Z n) as (S & F & N). split; [|split].
      * constructor; [exact S|]. eapply Forall_impl; [|exact F]. simpl. intros y [Hy _].
        exact Hy.
      * constructor; [split; [lia | exact W]|].
        eapply Forall_impl; [|exact F]. simpl. intros y [Hy Wy]. split; [lia | exact Wy].
      * intros x Hx Wx. destruct (Z.eq_dec x (d + 1)) as [->|Hne]; [left; left; reflexivity|].
        destruct (N x) as [I|B]; [lia | exact Wx | left; right; exact I |].
        right. constructor; [lia | exact B].
    + destruct (IH (d + 1)%Z (S n)) as (S & F & N). split; [exact S|]. split.
      * eapply Forall_impl; [|exact F]. simpl. intros y [Hy Wy]. split; [lia | exact Wy].
      * intros x Hx Wx. apply N; [|exact Wx].
        destruct (Z.eq_dec x (d + 1)) as [->|Hne]; lia.
Qed.

Lemma seven_business_days d : List.length (business_days 21 d 7) = 7.
Proof.
  rewrite length_business_days.
  assert (0 <= weekday d < 7)%Z as H by (apply Z.mod_pos_bound; lia).
  assert (weekday d = 0 \/ weekday d = 1 \/ weekday d = 2 \/ weekday d = 3 \/
          weekday d = 4 \/ weekday d = 5 \/ weekday d = 6)%Z
    as [-> | [-> | [-> | [-> | [-> | [-> | ->]]]]]] by lia; reflexivity.
Qed.

(** X11. The dates [main] gives the ARMA forecast are the seven business
    days that follow the last date of the history: seven dates in
    increasing order, each a Monday to Friday after that date, and no such
    day before the last of them is left out. *)
Theorem forecast_dates_are_next_business_days last_date :
  let future_dates := business_days 21 last_date 7 in
  List.length future_dates = 7 /\
  StronglySorted Z.lt future_dates /\
  Forall (fun x => (last_date < x)%Z /\ (weekday x < 5)%Z) future_dates /\
  forall x, (last_date < x)%Z -> (weekday x < 5)%Z ->
    In x future_dates \/ Forall (fun y => (y < x)%Z) future_dates.
Proof.
  split; [apply seven_business_days | apply business_days_spec].
Qed.

(** *** Scores that are not numbers *)

Lemma ltb_nan_l x y : isna x = true -> (x <? y)%float = false.
Proof.
  unfold isna, is_nan. rewrite negb_true_iff, FloatAxioms.eqb_spec, FloatAxioms.ltb_spec.
  intros H. unfold SFltb. rewrite (SFcompare_nan_l _ _ H). reflexivity.
Qed.

(** X12. A backtest error that is NaN, on either side, leaves the choice
    with the trend model. *)
Theorem nan_score_selects_prophet arma_mse prophet_mse :
  isna arma_mse = true \/ isna prophet_mse = true ->
  select_better_model arma_mse prophet_mse = Prophet.
Proof.
  intros [H|H]; unfold select_better_model.
  - rewrite (ltb_nan_l _ _ H). reflexivity.
  - rewrite (ltb_nan_r _ _ H). reflexivity.
Qed.

(** An ARMA error of 1.0 against a trend error that is NaN. *)
Lemma nan_score_selects_prophet_witness : select_better_model 1 nan = Prophet.
Proof.
  apply (@nan_score_selects_prophet 1 nan). right. reflexivity.
Defined.

(** *** A forecast that misses a test date *)

Lemma traverse_raises {A B} (f : A -> outcome B) (e : exn) (xs : list A) :
  (forall x, In x xs -> (exists v, f x = Returned v) \/ f x = Raised e) ->
  (exists x, In x xs /\ f x = Raised e) ->
  traverse f xs = Raised e.
Proof.
  induction xs as [|x xs IH]; simpl; intros H (x0 & Hx0 & E); [contradiction|].
  destruct (H x (or_introl eq_refl)) as [(v & Hv)|Hr]; [|rewrite Hr; reflexivity].
  rewrite Hv. simpl. destruct Hx0 as [<-|Hx0]; [congruence|].
  rewrite IH; [reflexivity | intros; apply H; right; assumption | exists x0; auto].
Qed.

(** X13. When the forecast frame has no row for one of the test dates,
    looking the test dates up raises [KeyError], and
    [train_and_predict_prophet] raises it again. *)
Theorem test_date_missing_raises {libraries : Libraries}
    train_df test_df future_days model forecast d :
  Prophet_fit train_df = Returned model ->
  Prophet_predict model (Z.of_nat (List.length test_df + future_days)) = Returned forecast ->
  In d (map ds test_df) ->
  (forall r, In r forecast -> fc_ds r <> d) ->
  train_and_predict_prophet train_df test_df future_days
  = Raised (KeyError "not in index").
Proof.
  intros Hf Hp Hd Hm. unfold train_and_predict_prophet. rewrite Hf. simpl.
  rewrite Hp. simpl.
  assert (loc_ds forecast (map ds test_df) = Raised (KeyError "not in index")) as ->;
    [|reflexivity].
  apply traverse_raises.
  - intros x _. destruct (find _ forecast); [left; eexists; reflexivity | right; reflexivity].
  - exists d. split; [exact Hd|].
    destruct (find (fun r => (fc_ds r =? d)%Z) forecast) as [r|] eqn:E; [|reflexivity].
    apply find_some in E as [Hr E]. apply Z.eqb_eq in E. exfalso. exact (Hm r Hr E).
Qed.

(** A forecast that stops with the training days: day 39 is missing. *)
Lemma test_date_missing_raises_witness :
  @train_and_predict_prophet (Bourse.bourse 2 true (Returned Bourse.rising))
     (map (fun '(d, c) => {| ds := d; y := c |}) (firstn 38 Scenarios.prices))
     (map (fun '(d, c) => {| ds := d; y := c |}) (skipn 38 Scenarios.prices)) 7
  = Raised (KeyError "not in index").
Proof.
  apply (@test_date_missing_raises (Bourse.bourse 2 true (Returned Bourse.rising))
           _ _ 7 tt (firstn 38 (Bourse.trend_off 2 9)) 39%Z).
  - reflexivity.
  - reflexivity.
  - vm_compute. auto.
  - intros r Hr E. vm_compute in Hr.
    repeat (destruct Hr as [<-|Hr]; [discriminate E|]). contradiction.
Defined.

(** *** The ARMA model is the better one *)

Section ArmaChosen.

Context {libraries : Libraries}.

(** What the ARMA branch of [main] does when the order, the fit and the
    forecast of seven values succeed. *)
Lemma arma_forecasting_succeeds df order arma_model fc :
  32 <= List.length df ->
  let arma_train_full := map Close (iloc df (Some (-32)%Z) (Some (-2)%Z)) in
  determine_arma_order arma_train_full default_max_lag default_threshold = Returned order ->
  fit_arma_model arma_train_full order = Some arma_model ->
  predict_arma arma_model 7 = Some fc ->
  List.length fc = 7 ->
  arma_forecasting (Some df)
  = ([ PlotArma (combine (business_days 21
                            (fold_right Z.max (Date (hd {| Date := 0; Close := nan |} df))
                                        (map Date df)) 7) fc) ],
     Returned (Some (Some fc))).
Proof.
  intros L arma_train_full Ho Hf Hp L7. unfold arma_forecasting.
  destruct (Nat.leb_spec 32 (List.length df)); [|lia].
  fold arma_train_full. rewrite Ho. unfold lift, iobind. rewrite Hf, Hp.
  rewrite seven_business_days, L7. reflexivity.
Qed.

(** X14. When the ARMA model is the better one and its refit and seven-day
    forecast succeed, [main] plots the forecast against the seven business
    days after the last date of the history and prints the change from the
    first to the last predicted price, as an increase when it is above
    zero and as a decrease otherwise, also when it is zero or NaN. *)
Theorem arma_selected_with_forecast ticker prophet arma_mse df order arma_model fc :
  prophet_execution ticker = Returned prophet ->
  get_stock_data_arma ticker "2022-11-06" "2024-11-06" = Some df ->
  arma_execution ticker (Some df) = Returned arma_mse ->
  better_model prophet arma_mse = ARMA ->
  32 <= List.length df ->
  let arma_train_full := map Close (iloc df (Some (-32)%Z) (Some (-2)%Z)) in
  determine_arma_order arma_train_full default_max_lag default_threshold = Returned order ->
  fit_arma_model arma_train_full order = Some arma_model ->
  predict_arma arma_model 7 = Some fc ->
  List.length fc = 7 ->
  let first_price := hd nan (map round2 fc) in
  let last_price := last (map round2 fc) nan in
  let percentage_change := (((last_price - first_price) / first_price) * 100)%float in
  main ticker =
    ([ Print "Finding the better model...";
       PlotArma (combine (business_days 21
                            (fold_right Z.max (Date (hd {| Date := 0; Close := nan |} df))
                                        (map Date df)) 7) fc);
       Print "predicting with the best model and plotting...";
       if (0 <? percentage_change)%float then PrintIncreased percentage_change
       else PrintDecreased (abs percentage_change) ],
     Returned tt).
Proof.
  intros Hp Hd Ha Hb L arma_train_full Ho Hf Hq L7 first_price last_price percentage_change.
  unfold main. rewrite Hp, Hd, Ha.
  unfold lift, iobind, emit. cbv beta iota zeta. rewrite Hb.
  rewrite (arma_forecasting_succeeds df L Ho Hf Hq L7).
  fold first_price last_price percentage_change.
  destruct (0 <? percentage_change)%float; reflexivity.
Qed.


End ArmaChosen.

(** A market in which the trend model is off by 4 (error 8.0 against 5.0)
    and the ARMA projection rises from 101 to 107. *)
Lemma arma_selected_with_forecast_witness :
  exists change,
    @main (Bourse.bourse 4 false (Returned Bourse.rising)) "AAPL" =
      ([ Print "Finding the better model...";
         PlotArma (combine [43; 44; 45; 46; 47; 50; 51]%Z Bourse.rising);
         Print "predicting with the best model and plotting...";
         PrintIncreased change ],
       Returned tt).
Proof.
  eexists.
  refine (eq_trans (@arma_selected_with_forecast
            (Bourse.bourse 4 false (Returned Bourse.rising)) "AAPL"%string
            _ _ (map (fun '(d, c) => {| Date := d; Close := c |}) Scenarios.prices)
            (1, 1) tt Bourse.rising _ _ _ _ _ _ _ _ _) _);
    try (vm_compute; reflexivity).
  vm_compute. lia.
Defined.


End ForecastFacts.

(** ** Loading the tickers and fetching their data *)

Module IngestFacts.

Import Ingest PyFacts.

(** *** The tickers loaded from the CSV file *)

Lemma In_unique_str l x : In x (unique l) <-> In x l.
Proof.
  induction l as [|a l IH]; simpl; [tauto|].
  rewrite filter_In, IH, negb_true_iff, String.eqb_neq.
  destruct (String.eqb_spec x a) as [->|N]; [tauto|].
  split; [intros [->|[H _]]; [congruence | auto] | intros [->|H]; [congruence | auto]].
Qed.

Lemma NoDup_unique l : NoDup (unique l).
Proof.
  induction l as [|a l IH]; simpl; constructor.
  - rewrite filter_In, negb_true_iff, String.eqb_neq. intros [_ H]. congruence.
  - apply NoDup_filter. exact IH.
Qed.

Lemma In_dropna cells t : In t (dropna cells) <-> In (Some t) cells.
Proof.
  induction cells as [|[s|] cells IH]; simpl; [tauto | |].
  - rewrite IH. split; intros [H|H]; auto; left; congruence.
  - rewrite IH. split; [auto | intros [H|H]; [discriminate | exact H]].
Qed.

(** X15. The list [load_stock_tickers] returns has no ticker twice, and a
    ticker is in it exactly when the file was read, has a SYMBOL column and
    the ticker stands in a cell of that column; in every other case the
    list is empty. *)
Theorem loaded_tickers_distinct read_csv csv_path :
  let tickers := snd (load_stock_tickers read_csv csv_path) in
  NoDup tickers /\
  forall t, In t tickers <->
    exists df cells, read_csv csv_path = Frame df /\
                     column "SYMBOL" df = Some cells /\ In (Some t) cells.
Proof.
  unfold load_stock_tickers.
  destruct (read_csv csv_path) as [| e | df]; simpl.
  - split; [constructor|]. intros t. split; [contradiction|].
    intros (df & cells & H & _). discriminate H.
  - split; [constructor|]. intros t. split; [contradiction|].
    intros (df & cells & H & _). discriminate H.
  - destruct (column "SYMBOL" df) as [cells|] eqn:C; simpl.
    + split; [apply NoDup_unique|]. intros t. rewrite In_unique_str, In_dropna. split.
      * intros H. exists df, cells. auto.
      * intros (df' & cells' & E & C' & H). injection E as <-.
        rewrite C in C'. injection C' as <-. exact H.
    + split; [constructor|]. intros t. split; [contradiction|].
      intros (df' & cells' & E & C' & _). injection E as <-. rewrite C in C'.
      discriminate C'.
Qed.

(** *** Fetching in batches *)

Lemma appended_app l l' : appended (l ++ l') = appended l ++ appended l'.
Proof.
  induction l as [|e l IH]; simpl; [reflexivity|].
  destruct e; simpl; rewrite ?IH; reflexivity.
Qed.

Lemma appended_flat_map {A} (f : A -> list event) xs :
  appended (flat_map f xs) = flat_map (fun x => appended (f x)) xs.
Proof.
  induction xs as [|x xs IH]; simpl; [reflexivity|].
  rewrite appended_app, IH. reflexivity.
Qed.

Lemma for_each_returns {A} (xs : list A) (body : A -> io event unit) :
  (forall x, snd (body x) = Returned tt) ->
  for_each xs body = (flat_map (fun x => fst (body x)) xs, Returned tt).
Proof.
  intros H. induction xs as [|x xs IH]; simpl; [reflexivity|].
  unfold iobind. specialize (H x). destruct (body x) as [l [[]|e]]; simpl in *;
    [|discriminate H].
  rewrite IH. reflexivity.
Qed.

(** Consecutive slices of width [step] make up the list again. *)
Lemma slices_concat {A} (l : list A) step fuel : forall i,
  (1 <= step)%Z -> (0 <= i)%Z -> (Z.of_nat (List.length l) - i <= Z.of_nat fuel)%Z ->
  List.concat (map (fun i => Forecast.iloc l (Some i) (Some (i + step)%Z))
                   (range_up fuel i (Z.of_nat (List.length l)) step))
  = skipn (Z.to_nat i) l.
Proof.
  induction fuel as [|fuel IH]; intros i Hs Hi Hf; simpl.
  - rewrite skipn_all2; [reflexivity | lia].
  - destruct (Z.ltb_spec i (Z.of_nat (List.length l))) as [Lt|Ge].
    + simpl. rewrite IH by lia.
      unfold Forecast.iloc, Forecast.slice_bound.
      destruct (Z.ltb_spec i 0); [lia|]. destruct (Z.ltb_spec (i + step) 0); [lia|].
      rewrite (Z.min_l i) by lia.
      destruct (Z.le_gt_cases (i + step) (Z.of_nat (List.length l))) as [Le|Gt].
      * rewrite Z.min_l by lia.
        replace (Z.to_nat (i + step)) with (Z.to_nat (i + step - i) + Z.to_nat i) by lia.
        rewrite <- skipn_skipn. apply firstn_skipn.
      * rewrite Z.min_r by lia.
        rewrite (skipn_all2 l (n := Z.to_nat (i + step))) by lia.
        rewrite app_nil_r. apply firstn_all2. rewrite length_skipn. lia.
    + simpl. rewrite skipn_all2; [reflexivity | lia].
Qed.

Section Fetch.

Variable path_exists : string -> bool.
Variable history : string -> string -> string -> outcome (list float).
Variable mean_daily_return : list float -> float.
Variable std_daily_return : list float -> float.
Variable info : string -> outcome ticker_info.

Local Abbreviation process_ticker := (process_ticker history mean_daily_return std_daily_return info).
Local Abbreviation process_batch := (process_batch history mean_daily_return std_daily_return info).
Local Abbreviation fetch_and_save_stock_data :=
  (fetch_and_save_stock_data path_exists history mean_daily_return std_daily_return info).

(** The handler of the inner [try] leaves nothing to raise. *)
Lemma process_ticker_returns ticker start_date end_date output_csv :
  snd (process_ticker ticker start_date end_date output_csv) = Returned tt.
Proof.
  unfold Ingest.process_ticker, try_except, fetch_ticker, iobind, emit, lift. simpl.
  destruct (history ticker start_date end_date) as [hist|e]; simpl; [|reflexivity].
  destruct (empty hist); simpl; [reflexivity|].
  destruct (info ticker) as [i|e]; reflexivity.
Qed.

Lemma process_batch_events tickers batch_size start_date end_date output_csv i :
  process_batch tickers batch_size start_date end_date output_csv i
  = (flat_map (fun t => fst (process_ticker t start_date end_date output_csv))
              (Forecast.iloc tickers (Some i) (Some (i + batch_size)%Z))
       ++ [Sleep 1000],
     Returned tt).
Proof.
  unfold Ingest.process_batch.
  rewrite for_each_returns by (intros; apply process_ticker_returns).
  reflexivity.
Qed.

Lemma opening_appends_nothing output_csv :
  appended
    (if negb (path_exists output_csv) then
       [ WriteFile output_csv
           (String.concat "," ["Ticker"; "Sector"; "Market Cap"; "P/E Ratio";
                               "Average Return"; "Volatility"] ++ LF)%string;
         Print ("Created '" ++ output_csv ++ "' with headers.")%string ]
     else [ Print ("Appending to existing '" ++ output_csv ++ "'.")%string ]) = [].
Proof.
  destruct (negb (path_exists output_csv)); reflexivity.
Qed.

Lemma fetch_events tickers batch_size start_date end_date output_csv :
  (batch_size <> 0)%Z ->
  exists opening total_batches,
    appended opening = [] /\
    fetch_and_save_stock_data tickers batch_size start_date end_date output_csv
    = (opening ++ PrintFetching total_batches batch_size ::
         flat_map (fun i =>
                     flat_map (fun t => fst (process_ticker t start_date end_date output_csv))
                              (Forecast.iloc tickers (Some i) (Some (i + batch_size)%Z))
                     ++ [Sleep 1000])
                  (range_step 0 (Z.of_nat (List.length tickers)) batch_size)
         ++ [ Print (LF ++ "Data fetching completed. Consolidated data saved to '"
                        ++ output_csv ++ "'.")%string ],
       Completed).
Proof.
  intros N. unfold Ingest.fetch_and_save_stock_data.
  destruct (Z.eqb_spec batch_size 0) as [E|_]; [contradiction|].
  rewrite for_each_returns by (intros; rewrite process_batch_events; reflexivity).
  eexists _, _. split; [apply opening_appends_nothing|].
  f_equal. f_equal. f_equal. f_equal. apply flat_map_ext. intros i.
  rewrite process_batch_events. reflexivity.
Qed.

(** X16. With a batch size of one or more, the run completes and every
    ticker is processed once, in the order of the list, whatever the batch
    size: the lines appended to the file are those of processing the
    tickers one after the other, so a ticker that fails or has no history
    takes no line of another away. *)
Theorem every_ticker_processed_once tickers batch_size start_date end_date output_csv :
  (1 <= batch_size)%Z ->
  exists evs,
    fetch_and_save_stock_data tickers batch_size start_date end_date output_csv
    = (evs, Completed) /\
    appended evs
    = appended (flat_map (fun t => fst (process_ticker t start_date end_date output_csv))
                         tickers).
Proof.
  intros B.
  destruct (@fetch_events tickers batch_size start_date end_date output_csv)
    as (opening & total_batches & O & E); [lia|].
  eexists. split; [exact E|].
  rewrite appended_app, O. simpl. rewrite appended_app. simpl. rewrite app_nil_r.
  rewrite !appended_flat_map.
  rewrite <- (skipn_O tickers) at 2. change 0 with (Z.to_nat 0).
  rewrite <- (@slices_concat _ tickers batch_size (Z.to_nat (Z.of_nat (List.length tickers) - 0)) 0%Z)
    by lia.
  unfold range_step. destruct (Z.ltb_spec 0 batch_size); [|lia].
  generalize (range_up (Z.to_nat (Z.of_nat (List.length tickers) - 0)) 0
                       (Z.of_nat (List.length tickers)) batch_size).
  intros l. induction l as [|i l IH]; simpl; [reflexivity|].
  rewrite appended_app. simpl. rewrite app_nil_r, appended_flat_map, flat_map_app, IH.
  reflexivity.
Qed.

(** X17. A batch size of zero or less processes no ticker: zero ends the
    run with [ZeroDivisionError], after the output file was created if it
    did not exist, and a negative size completes with no line appended. *)
Theorem nonpositive_batch_size tickers batch_size start_date end_date output_csv :
  (batch_size <= 0)%Z ->
  appended (fst (fetch_and_save_stock_data tickers batch_size start_date end_date output_csv))
    = [] /\
  snd (fetch_and_save_stock_data tickers batch_size start_date end_date output_csv)
    = if (batch_size =? 0)%Z then ZeroDivisionError else Completed.
Proof.
  intros B. destruct (Z.eqb_spec batch_size 0) as [E|N].
  - unfold Ingest.fetch_and_save_stock_data. destruct (Z.eqb_spec batch_size 0); [|lia].
    simpl. split; [apply opening_appends_nothing | reflexivity].
  - destruct (@fetch_events tickers batch_size start_date end_date output_csv N)
      as (opening & total_batches & O & E).
    rewrite E. simpl. split; [|reflexivity].
    rewrite appended_app, O. simpl.
    unfold range_step. destruct (Z.ltb_spec 0 batch_size); [lia|].
    replace (Z.to_nat (0 - Z.of_nat (List.length tickers))) with 0 by lia. reflexivity.
Qed.

(** Processing a ticker never prints the message of the batch handler. *)
Lemma process_ticker_no_batch_error ticker start_date end_date output_csv i e :
  ~ In (PrintBatchError i e) (fst (process_ticker ticker start_date end_date output_csv)).
Proof.
  unfold Ingest.process_ticker, try_except, fetch_ticker, iobind, emit, lift. simpl.
  destruct (history ticker start_date end_date) as [hist|e']; simpl.
  - destruct (empty hist); simpl.
    + intros [H|[H|[]]]; discriminate H.
    + destruct (info ticker) as [inf|e'']; simpl.
      * intros [H|[H|[H|[H|[]]]]]; discriminate H.
      * intros [H|[H|[]]]; discriminate H.
  - intros [H|[H|[]]]; discriminate H.
Qed.

(** X18. The handler around a batch never runs: whatever the feed does,
    the run prints no "Error fetching batch" message and lets no exception
    of a ticker through. *)
Theorem batch_handler_never_runs tickers batch_size start_date end_date output_csv :
  (forall i e,
     ~ In (PrintBatchError i e)
          (fst (fetch_and_save_stock_data tickers batch_size start_date end_date output_csv)))
  /\ forall e,
       snd (fetch_and_save_stock_data tickers batch_size start_date end_date output_csv)
       <> Propagated e.
Proof.
  assert (forall output_csv i e,
    ~ In (PrintBatchError i e)
      (if negb (path_exists output_csv) then
         [ WriteFile output_csv
             (String.concat "," ["Ticker"; "Sector"; "Market Cap"; "P/E Ratio";
                                 "Average Return"; "Volatility"] ++ LF)%string;
           Print ("Created '" ++ output_csv ++ "' with headers.")%string ]
       else [ Print ("Appending to existing '" ++ output_csv ++ "'.")%string ])) as Op.
  { intros o i e. destruct (negb (path_exists o)); simpl.
    - intros [H|[H|[]]]; discriminate H.
    - intros [H|[]]; discriminate H. }
  destruct (Z.eqb_spec batch_size 0) as [Z0|N].
  - unfold Ingest.fetch_and_save_stock_data. destruct (Z.eqb_spec batch_size 0) as [_|]; [|lia].
    simpl. split; [intros i e; apply Op | discriminate].
  - destruct (@fetch_events tickers batch_size start_date end_date output_csv N)
      as (opening & total_batches & O & E).
    split; [|rewrite E; discriminate].
    intros i e H. revert H. unfold Ingest.fetch_and_save_stock_data.
    destruct (Z.eqb_spec batch_size 0) as [|_]; [lia|].
    rewrite for_each_returns by (intros; rewrite process_batch_events; reflexivity).
    simpl. rewrite in_app_iff. intros [H|[H|H]]; [exact (Op _ _ _ H) | discriminate H |].
    rewrite in_app_iff in H. destruct H as [H|[H|[]]]; [|discriminate H].
    apply in_flat_map in H as (j & _ & H). rewrite process_batch_events in H. simpl in H.
    rewrite in_app_iff in H. destruct H as [H|[H|[]]]; [|discriminate H].
    apply in_flat_map in H as (t & _ & H).
    exact (process_ticker_no_batch_error _ _ _ _ _ _ H).
Qed.

End Fetch.

(** Four tickers in batches of three: [A] and [D] get their lines, [B] has
    no history and [C] fails. *)
Lemma every_ticker_processed_once_witness :
  exists evs,
    run_feed ["A"; "B"; "C"; "D"]%string 3 = (evs, Completed) /\
    appended evs
    = [ {| c_Ticker := "A"; c_Sector := "Energy"; c_Market_Cap := Some 5%float;
           c_PE_Ratio := None; c_Average_Return := 0; c_Volatility := 1 |};
        {| c_Ticker := "D"; c_Sector := "Energy"; c_Market_Cap := Some 5%float;
           c_PE_Ratio := None; c_Average_Return := 0; c_Volatility := 1 |} ].
Proof.
  apply (@every_ticker_processed_once (fun _ => false) feed_history (fun _ => 0%float)
           (fun _ => 1%float) feed_info ["A"; "B"; "C"; "D"]%string 3
           "2023-05-01" "2024-11-09" "out.csv").
  lia.
Defined.

(** The same tickers with a batch size of zero. *)
Lemma nonpositive_batch_size_witness :
  appended (fst (run_feed ["A"; "B"; "C"; "D"]%string 0)) = [] /\
  snd (run_feed ["A"; "B"; "C"; "D"]%string 0) = ZeroDivisionError.
Proof.
  apply (@nonpositive_batch_size (fun _ => false) feed_history (fun _ => 0%float)
           (fun _ => 1%float) feed_info ["A"; "B"; "C"; "D"]%string 0
           "2023-05-01" "2024-11-09" "out.csv").
  lia.
Defined.

End IngestFacts.

(** ** More of the preprocessing *)

Module PreprocessFacts.

Import StockRisk Strings PyFacts StockRiskProps.

(** *** The order of strings *)

Lemma string_compare_refl s : String.compare s s = Eq.
Proof.
  induction s as [|c s IH]; simpl; [reflexivity|].
  unfold Ascii.compare. rewrite N.compare_refl. exact IH.
Qed.

Lemma string_compare_trans a : forall b c,
  String.compare a b = Lt -> String.compare b c = Lt -> String.compare a c = Lt.
Proof.
  induction a as [|x a IH]; intros [|y b] [|z c]; simpl; try discriminate; auto.
  unfold Ascii.compare.
  destruct (N.compare_spec (N_of_ascii x) (N_of_ascii y)) as [E|L|G]; try discriminate;
    destruct (N.compare_spec (N_of_ascii y) (N_of_ascii z)) as [E'|L'|G']; try discriminate;
    intros H1 H2.
  - rewrite E, E', N.compare_refl. exact (IH _ _ H1 H2).
  - rewrite E. apply N.compare_lt_iff in L'. rewrite L'. reflexivity.
  - rewrite <- E'. apply N.compare_lt_iff in L. rewrite L. reflexivity.
  - assert (N_of_ascii x < N_of_ascii z)%N as L'' by lia.
    apply N.compare_lt_iff in L''. rewrite L''. reflexivity.
Qed.

Lemma string_lt_irrefl a : ~ string_lt a a.
Proof.
  unfold string_lt, String.ltb. rewrite string_compare_refl. discriminate.
Qed.

Lemma string_lt_trans a b c : string_lt a b -> string_lt b c -> string_lt a c.
Proof.
  unfold string_lt, String.ltb.
  destruct (String.compare a b) eqn:E1; try discriminate.
  destruct (String.compare b c) eqn:E2; try discriminate.
  rewrite (string_compare_trans _ _ _ E1 E2). reflexivity.
Qed.

Lemma string_lt_total a b :
  String.eqb a b = false -> String.ltb a b = false -> string_lt b a.
Proof.
  unfold string_lt, String.ltb. intros N L. rewrite (String.compare_antisym b a).
  destruct (String.compare a b) eqn:E; simpl; [|discriminate L | reflexivity].
  apply String.compare_eq_iff in E. apply String.eqb_neq in N. contradiction.
Qed.

(** *** The sectors of a table *)

Lemma In_insert_sector s l x : In x (insert_sector s l) <-> x = s \/ In x l.
Proof.
  induction l as [|y l IH]; simpl; [intuition congruence|].
  destruct (String.eqb_spec s y) as [->|N]; [simpl; intuition congruence|].
  destruct (String.ltb s y); simpl; [intuition congruence|].
  rewrite IH. intuition congruence.
Qed.

Lemma insert_sector_sorted s l :
  StronglySorted string_lt l -> StronglySorted string_lt (insert_sector s l).
Proof.
  induction l as [|y l IH]; simpl; intros S; [repeat constructor|].
  destruct (String.eqb s y) eqn:E; [exact S|].
  destruct (String.ltb s y) eqn:L.
  - constructor; [exact S|]. inversion_clear S as [|? ? _ F]. constructor; [exact L|].
    eapply Forall_impl; [|exact F]. intros z. apply string_lt_trans. exact L.
  - inversion_clear S as [|? ? S' F]. constructor; [apply IH, S'|].
    apply Forall_forall. intros z Hz. apply In_insert_sector in Hz as [->|Hz].
    + apply string_lt_total; assumption.
    + exact (proj1 (Forall_forall _ _) F z Hz).
Qed.

Lemma sector_categories_sorted df : StronglySorted string_lt (sector_categories df).
Proof.
  induction df as [|r df IH]; simpl; [constructor|].
  destruct (Sector r); [apply insert_sector_sorted, IH | exact IH].
Qed.

Lemma sorted_NoDup l : StronglySorted string_lt l -> NoDup l.
Proof.
  induction 1 as [|x l S IH F]; constructor; [|exact IH].
  intros H. exact (string_lt_irrefl (proj1 (Forall_forall _ _) F x H)).
Qed.

Lemma In_sector_categories df r s :
  In r df -> Sector r = Some s -> In s (sector_categories df).
Proof.
  induction df as [|r0 df IH]; simpl; [contradiction|].
  intros [->|H] E.
  - rewrite E. apply In_insert_sector. left. reflexivity.
  - destruct (Sector r0); [apply In_insert_sector; right|]; apply IH; assumption.
Qed.

Lemma sector_categories_In df s :
  In s (sector_categories df) -> exists r, In r df /\ Sector r = Some s.
Proof.
  induction df as [|r0 df IH]; simpl; [contradiction|].
  destruct (Sector r0) as [s0|] eqn:E.
  - intros H. apply In_insert_sector in H as [->|H].
    + exists r0. auto.
    + destruct (IH H) as (r & Hr & Es). exists r. auto.
  - intros H. destruct (IH H) as (r & Hr & Es). exists r. auto.
Qed.

Lemma NoDup_prefixed l : NoDup l -> NoDup (map (fun c => ("Sector_" ++ c)%string) l).
Proof.
  induction 1 as [|x l N _ IH]; simpl; constructor; [|exact IH].
  intros H. apply in_map_iff in H as (y & E & Hy). injection E as <-. contradiction.
Qed.

(** The indicators of a row over categories without repeats: one is set
    when the row's sector is a category, and none otherwise. *)
Lemma indicators_of (name : string -> string) s l :
  NoDup l ->
  filter snd (map (fun c => (name c, String.eqb s c)) l)
  = if in_dec string_dec s l then [(name s, true)] else [].
Proof.
  induction 1 as [|x l N _ IH]; simpl; [reflexivity|].
  destruct (String.eqb_spec s x) as [->|Ne]; simpl.
  - rewrite IH. destruct (string_dec x x) as [?|C]; [|contradiction].
    destruct (in_dec string_dec x l); [contradiction | reflexivity].
  - rewrite IH. destruct (string_dec x s) as [C|?]; [congruence|].
    destruct (in_dec string_dec s l); reflexivity.
Qed.

(** *** The rows that are kept *)

(** A row with nothing missing and nothing infinite. *)
Lemma isna_replace_inf x : isna x = false -> isna (replace_inf x) = is_infinity x.
Proof.
  intros H. unfold replace_inf. rewrite <- is_infinity_eqb.
  destruct (is_infinity x); [reflexivity | exact H].
Qed.

Lemma replace_inf_id x : is_infinity x = false -> replace_inf x = x.
Proof.
  intros H. unfold replace_inf. rewrite <- is_infinity_eqb, H. reflexivity.
Qed.

(** The cleaned frame, row by row: the rows of the table that have every
    essential column and no infinite number, with the numbers they have in
    the table and the indicators of the sectors of the rows that have
    every essential column. *)
Lemma clean_rows df :
  clean df
  = map (fun r => {| f_Ticker := Ticker r;
                     f_Market_Cap := Market_Cap r;
                     f_PE_Ratio := PE_Ratio r;
                     f_Average_Return := Average_Return r;
                     f_Volatility := Volatility r;
                     f_Sector :=
                       get_dummies_row (sector_categories (filter has_essential df)) r |})
        (filter (fun r => has_essential r &&
                          negb (any_numeric is_infinity
                                  (Market_Cap r, PE_Ratio r, Average_Return r, Volatility r)))
                df).
Proof.
  unfold clean. generalize (sector_categories (filter has_essential df)). intros cats.
  induction df as [|r df IH]; simpl; [reflexivity|].
  destruct (has_essential r) eqn:E; simpl; [|exact IH].
  unfold has_essential in E. destruct (Sector r) as [s|]; [|discriminate E].
  apply andb_prop in E as [E E4]. apply andb_prop in E as [E E3].
  apply andb_prop in E as [E1 E2].
  apply negb_true_iff in E1, E2, E3, E4.
  rewrite !isna_replace_inf by assumption.
  destruct (is_infinity (Market_Cap r)) eqn:I1; simpl; [exact IH|].
  destruct (is_infinity (PE_Ratio r)) eqn:I2; simpl; [exact IH|].
  destruct (is_infinity (Average_Return r)) eqn:I3; simpl; [exact IH|].
  destruct (is_infinity (Volatility r)) eqn:I4; simpl; [exact IH|].
  rewrite !replace_inf_id by assumption. f_equal. exact IH.
Qed.

(** Scaling leaves the ticker and the indicators of every row alone. *)
Lemma preprocess_data_out fit_transform df log out :
  preprocess_data fit_transform df = (log, Returned out) ->
  map f_Ticker out = map f_Ticker (clean df) /\
  map f_Sector out = map f_Sector (clean df).
Proof.
  unfold preprocess_data. simpl.
  destruct (fit_transform (map numerical_features (clean df))) as [scaled|e];
    simpl; [|discriminate].
  destruct (Nat.eqb_spec (List.length scaled) (List.length (clean df))) as [L|L];
    simpl; [|discriminate].
  intros H. injection H as _ <-. revert scaled L.
  induction (clean df) as [|r l IH]; intros [|v scaled] L; simpl in *; try discriminate;
    [split; reflexivity|].
  destruct (IH scaled) as [T S]; [congruence|]. rewrite T, S.
  destruct v as [[[mc pe] ar] vol]. split; reflexivity.
Qed.

(** X19. The rows [preprocess_data] returns are, in the order of the
    table, those that have a sector and four numbers of which none is
    missing or infinite: no other row is dropped and none is added. *)
Theorem preprocess_data_rows fit_transform df log out :
  preprocess_data fit_transform df = (log, Returned out) ->
  map f_Ticker out
  = map Ticker
      (filter (fun r => has_essential r &&
                        negb (any_numeric is_infinity
                                (Market_Cap r, PE_Ratio r, Average_Return r, Volatility r)))
              df).
Proof.
  intros H. destruct (preprocess_data_out _ _ H) as [T _]. rewrite T, clean_rows, map_map.
  reflexivity.
Qed.

(** X20. Every row [preprocess_data] returns has the same indicator
    columns: one per sector of the rows that have every essential column,
    in the sorted order of these sectors and so under distinct names; and
    exactly one indicator of a row is set, that of one of these sectors. *)
Theorem sector_indicators fit_transform df log out :
  preprocess_data fit_transform df = (log, Returned out) ->
  exists sectors,
    StronglySorted string_lt sectors /\
    (forall s, In s sectors <->
               exists r, In r df /\ has_essential r = true /\ Sector r = Some s) /\
    NoDup (map (fun c => ("Sector_" ++ c)%string) sectors) /\
    Forall (fun r => map fst (f_Sector r) = map (fun c => ("Sector_" ++ c)%string) sectors /\
                     exists s, In s sectors /\
                               filter snd (f_Sector r) = [(("Sector_" ++ s)%string, true)])
           out.
Proof.
  intros H. exists (sector_categories (filter has_essential df)).
  pose proof (sector_categories_sorted (filter has_essential df)) as Sorted.
  pose proof (sorted_NoDup Sorted) as N.
  split; [exact Sorted|]. split; [|split; [apply NoDup_prefixed, N|]].
  - intros s. split.
    + intros Hs. apply sector_categories_In in Hs as (r & Hr & E).
      apply filter_In in Hr as [Hr He]. exists r. auto.
    + intros (r & Hr & He & E). apply (@In_sector_categories _ r); [|exact E].
      apply filter_In. split; assumption.
  - destruct (preprocess_data_out _ _ H) as [_ S].
    apply Forall_map with (f := f_Sector)
      (P := fun c => map fst c
                     = map (fun c => ("Sector_" ++ c)%string)
                           (sector_categories (filter has_essential df)) /\
                     exists s, In s (sector_categories (filter has_essential df)) /\
                               filter snd c = [(("Sector_" ++ s)%string, true)]).
    rewrite S, clean_rows, map_map. simpl.
    apply Forall_forall. intros c Hc. apply in_map_iff in Hc as (r & <- & Hr).
    apply filter_In in Hr as [Hr E]. apply andb_prop in E as [E _].
    unfold get_dummies_row. split; [rewrite map_map; reflexivity|].
    pose proof E as E'. unfold has_essential in E'.
    destruct (Sector r) as [s|] eqn:Sec; [|discriminate E'].
    assert (In s (sector_categories (filter has_essential df))) as Hs.
    { apply (@In_sector_categories _ r); [|exact Sec]. apply filter_In. split; assumption. }
    exists s. split; [exact Hs|].
    rewrite (indicators_of (fun c => ("Sector_" ++ c)%string) s N).
    destruct (in_dec string_dec s (sector_categories (filter has_essential df))) as [_|C];
      [reflexivity | contradiction].
Qed.

(** Four stocks of three sectors, one with an infinite P/E ratio and one
    with none: the two others are returned, and the sector of the stock
    with the infinite ratio keeps its column. *)
Lemma preprocess_data_rows_witness :
  map f_Ticker
      [{| f_Ticker := "X"; f_Market_Cap := 0; f_PE_Ratio := 1; f_Average_Return := 0;
          f_Volatility := 0;
          f_Sector := [("Sector_Banks"%string, false); ("Sector_Energy"%string, true);
                       ("Sector_Tech"%string, false)] |};
       {| f_Ticker := "W"; f_Market_Cap := 0; f_PE_Ratio := -1; f_Average_Return := 0;
          f_Volatility := 0;
          f_Sector := [("Sector_Banks"%string, true); ("Sector_Energy"%string, false);
                       ("Sector_Tech"%string, false)] |}]
  = ["X"; "W"]%string.
Proof.
  apply (@preprocess_data_rows Sklearn.StandardScaler_fit_transform
           [ Scenarios.stock "X" 12;
             {| Ticker := "Y"; Sector := Some "Tech"%string; Market_Cap := 1000;
                PE_Ratio := infinity; Average_Return := 0.5; Volatility := 0.25 |};
             Scenarios.stock "Z" nan;
             {| Ticker := "W"; Sector := Some "Banks"%string; Market_Cap := 1000;
                PE_Ratio := 9; Average_Return := 0.5; Volatility := 0.25 |} ]
           [ Print (LF ++ "Preprocessing data...")%string;
             Print "Loading the latest diversification metrics...";
             Print "Preprocessing completed." ]).
  vm_compute. reflexivity.
Defined.

Lemma sector_indicators_witness :
  exists sectors,
    StronglySorted string_lt sectors /\
    (forall s, In s sectors <->
               exists r,
                 In r [ Scenarios.stock "X" 12;
                        {| Ticker := "Y"; Sector := Some "Tech"%string; Market_Cap := 1000;
                           PE_Ratio := infinity; Average_Return := 0.5;
                           Volatility := 0.25 |};
                        Scenarios.stock "Z" nan;
                        {| Ticker := "W"; Sector := Some "Banks"%string; Market_Cap := 1000;
                           PE_Ratio := 9; Average_Return := 0.5; Volatility := 0.25 |} ] /\
                 has_essential r = true /\ Sector r = Some s) /\
    NoDup (map (fun c => ("Sector_" ++ c)%string) sectors) /\
    Forall (fun r => map fst (f_Sector r) = map (fun c => ("Sector_" ++ c)%string) sectors /\
                     exists s, In s sectors /\
                               filter snd (f_Sector r) = [(("Sector_" ++ s)%string, true)])
      [{| f_Ticker := "X"; f_Market_Cap := 0; f_PE_Ratio := 1; f_Average_Return := 0;
          f_Volatility := 0;
          f_Sector := [("Sector_Banks"%string, false); ("Sector_Energy"%string, true);
                       ("Sector_Tech"%string, false)] |};
       {| f_Ticker := "W"; f_Market_Cap := 0; f_PE_Ratio := -1; f_Average_Return := 0;
          f_Volatility := 0;
          f_Sector := [("Sector_Banks"%string, true); ("Sector_Energy"%string, false);
                       ("Sector_Tech"%string, false)] |}].
Proof.
  apply (@sector_indicators Sklearn.StandardScaler_fit_transform
           [ Scenarios.stock "X" 12;
             {| Ticker := "Y"; Sector := Some "Tech"%string; Market_Cap := 1000;
                PE_Ratio := infinity; Average_Return := 0.5; Volatility := 0.25 |};
             Scenarios.stock "Z" nan;
             {| Ticker := "W"; Sector := Some "Banks"%string; Market_Cap := 1000;
                PE_Ratio := 9; Average_Return := 0.5; Volatility := 0.25 |} ]
           [ Print (LF ++ "Preprocessing data...")%string;
             Print "Loading the latest diversification metrics...";
             Print "Preprocessing completed." ]).
  vm_compute. reflexivity.
Defined.

End PreprocessFacts.

(** ** More of the number of clusters *)

Module ClusterFacts.

Import StockRisk PyFacts StockRiskProps.

Lemma seq_from b : forall a, seq a b = map (fun i => a + i) (seq 0 b).
Proof.
  induction b as [|b IH]; intros a; simpl; [reflexivity|].
  f_equal; [lia|]. rewrite (IH (S a)), <- (seq_shift b 0), map_map.
  apply map_ext. intros i. lia.
Qed.

Lemma range_split lo k hi :
  (lo <= k < hi)%Z -> range lo hi = range lo k ++ k :: range (k + 1) hi.
Proof.
  intros H. unfold range.
  replace (Z.to_nat (hi - lo)) with (Z.to_nat (k - lo) + S (Z.to_nat (hi - (k + 1)))) by lia.
  rewrite seq_app, map_app. simpl. f_equal. f_equal; [lia|].
  rewrite (seq_from _ (S (Z.to_nat (k - lo)))), map_map. apply map_ext. intros i. lia.
Qed.

Lemma score_candidates_app KMeans silhouette X K1 K2 : forall wcss silhouette_scores,
  score_candidates KMeans silhouette X (K1 ++ K2) wcss silhouette_scores
  = bind (score_candidates KMeans silhouette X K1 wcss silhouette_scores)
         (fun '(wcss, silhouette_scores) =>
            score_candidates KMeans silhouette X K2 wcss silhouette_scores).
Proof.
  induction K1 as [|k K1 IH]; simpl; intros wcss sil; [reflexivity|].
  destruct (KMeans X k) as [[labels inertia]|e]; simpl; [|reflexivity].
  destruct (silhouette X labels) as [score|e]; simpl; [|reflexivity].
  apply IH.
Qed.

(** X21. The trial fits are all needed although their scores are not
    used: when k-means or the silhouette score raises for some [k] from 2
    to [max_k], and returned for every smaller [k], the exception leaves
    [determine_optimal_clusters] and no number of clusters is returned. *)
Theorem first_failing_trial_escapes KMeans silhouette X max_k k0 e labels inertia score :
  (2 <= k0 <= max_k)%Z ->
  (forall k, (2 <= k < k0)%Z ->
     KMeans X k = Returned (labels k, inertia k) /\
     silhouette X (labels k) = Returned (score k)) ->
  KMeans X k0 = Raised e \/
  (exists l i, KMeans X k0 = Returned (l, i) /\ silhouette X l = Raised e) ->
  determine_optimal_clusters KMeans silhouette X max_k = Raised e.
Proof.
  intros B H F. unfold determine_optimal_clusters.
  rewrite (@range_split 2 k0 (max_k + 1)) by lia.
  rewrite score_candidates_app.
  rewrite (score_candidates_returns KMeans silhouette X labels inertia score)
    by (intros k Hk; apply In_range in Hk; apply H; lia).
  simpl. destruct F as [-> | (l & i & -> & S)]; [reflexivity|].
  simpl. rewrite S. reflexivity.
Qed.

(** Three rows: two clusters are scored, three are refused. *)
Lemma first_failing_trial_escapes_witness :
  determine_optimal_clusters Sklearn.KMeans_fit_predict Sklearn.silhouette_score
    Scenarios.three_rows 10
  = Raised (ValueError "Number of labels is invalid: valid values are 2 to n_samples - 1").
Proof.
  apply (@first_failing_trial_escapes Sklearn.KMeans_fit_predict Sklearn.silhouette_score
           Scenarios.three_rows 10 3 _
           (fun k => map (fun i => (Z.of_nat i mod k)%Z) (seq 0 3))
           (fun _ => 0%float) (fun _ => 0%float)).
  - lia.
  - intros k Hk. assert (k = 2)%Z as -> by lia. split; reflexivity.
  - right. eexists _, _. split; reflexivity.
Defined.

End ClusterFacts.
